(** * Quiz PDF generator: schema validation and story assembly

    A shallow embedding of [validate_quiz_schema] and [build_pdf] from
    [quiz_generator_gui.py], with the properties of the validator and of
    the assembled story proved over it.

    The input of both functions is whatever [json.loads] returned, so the
    embedding starts from the Python values a JSON text can denote and
    from the handful of Python operations the two functions apply to
    them ([in], subscription, [.get], [isinstance], [len], iteration,
    [str]), each with the exception it raises on the wrong type. *)

From Stdlib Require Import String Ascii List ZArith Lia Bool Arith.
From Stdlib Require Import DecimalString DecimalZ DecimalPos Permutation.
Import ListNotations.

Local Open Scope list_scope.
Local Open Scope string_scope.

(** ** Python values and exceptions *)

(** The values [json.loads] builds.  A [str] is kept as its UTF-8 bytes.
    A [float] is kept as its [repr], the shortest text that reads back as
    the same float, which identifies it.  A [dict] is kept as its entries
    in insertion order; [json.loads] never leaves two entries with one
    key, and [lookup] takes the first entry should a list have two. *)
#[local] Set Warnings "-register-all".
Inductive value : Type :=
| PyNone
| PyBool (b : bool)
| PyInt (n : Z)
| PyFloat (repr : string)
| PyStr (s : string)
| PyList (items : list value)
| PyDict (entries : list (string * value)).
#[local] Set Warnings "register-all".

(** The exceptions the two functions can end with.  [ValueError] carries
    the message the validator formats; [KeyError] carries the key.  The
    interpreter's own wording for [TypeError] and [AttributeError] is not
    kept. *)
Inductive exn : Type :=
| ValueError (msg : string)
| KeyError (key : string)
| TypeError
| AttributeError.

Inductive result (A : Type) : Type :=
| Ok (a : A)
| Raise (e : exn).

Arguments Ok {A} a.
Arguments Raise {A} e.

Definition bind {A B : Type} (r : result A) (k : A -> result B) : result B :=
  match r with
  | Ok a => k a
  | Raise e => Raise e
  end.

Declare Scope py_scope.
Delimit Scope py_scope with py.
Notation "x <- r ;; k" := (bind r (fun x => k))
  (at level 61, r at next level, right associativity) : py_scope.
Notation "r ;;; k" := (bind r (fun _ => k))
  (at level 61, right associativity) : py_scope.
Local Open Scope py_scope.

(** ** Strings *)

(** [str(n)] of an [int]. *)
Definition decimal (n : Z) : string := NilZero.string_of_int (Z.to_int n).

(** [needle in haystack] on two [str]: substring search. *)
Fixpoint is_substring (needle haystack : string) : bool :=
  String.prefix needle haystack ||
  match haystack with
  | EmptyString => false
  | String _ rest => is_substring needle rest
  end.

Definition is_continuation (c : ascii) : bool :=
  (128 <=? nat_of_ascii c)%nat && (nat_of_ascii c <? 192)%nat.

(** The continuation bytes a UTF-8 text starts with, and then its
    characters, each a lead byte with the continuation bytes after it. *)
Fixpoint utf8_split (s : string) : string * list string :=
  match s with
  | EmptyString => (EmptyString, [])
  | String c rest =>
      let (cont, chars) := utf8_split rest in
      if is_continuation c then (String c cont, chars)
      else (EmptyString, String c cont :: chars)
  end.

Definition utf8_chars (s : string) : list string := snd (utf8_split s).

Fixpoint join (sep : string) (parts : list string) : string :=
  match parts with
  | [] => EmptyString
  | [p] => p
  | p :: rest => p ++ sep ++ join sep rest
  end.

(** ** Dictionaries *)

Fixpoint lookup (k : string) (entries : list (string * value)) : option value :=
  match entries with
  | [] => None
  | (k', v) :: rest => if String.eqb k k' then Some v else lookup k rest
  end.

Definition has_key (k : string) (entries : list (string * value)) : bool :=
  match lookup k entries with
  | Some _ => true
  | None => false
  end.

(** ** Python operations *)

(** [k in container], [k] a [str]. *)
Definition py_contains (k : string) (container : value) : result bool :=
  match container with
  | PyDict entries => Ok (has_key k entries)
  | PyList items =>
      Ok (existsb (fun v => match v with
                            | PyStr s => String.eqb k s
                            | _ => false
                            end) items)
  | PyStr s => Ok (is_substring k s)
  | PyNone | PyBool _ | PyInt _ | PyFloat _ => Raise TypeError
  end.

(** [container[k]], [k] a [str]. *)
Definition py_getitem (container : value) (k : string) : result value :=
  match container with
  | PyDict entries =>
      match lookup k entries with
      | Some v => Ok v
      | None => Raise (KeyError k)
      end
  | _ => Raise TypeError
  end.

(** [obj.get(k, default)]: only a [dict] has the method. *)
Definition py_get (obj : value) (k : string) (default : value) : result value :=
  match obj with
  | PyDict entries =>
      match lookup k entries with
      | Some v => Ok v
      | None => Ok default
      end
  | _ => Raise AttributeError
  end.

Definition isinstance_list (v : value) : bool :=
  match v with PyList _ => true | _ => false end.

Definition isinstance_dict (v : value) : bool :=
  match v with PyDict _ => true | _ => false end.

(** The elements a [for] loop (or [enumerate]) draws from a value. *)
Definition py_iter (v : value) : result (list value) :=
  match v with
  | PyList items => Ok items
  | PyDict entries => Ok (map (fun kv => PyStr (fst kv)) entries)
  | PyStr s => Ok (map PyStr (utf8_chars s))
  | PyNone | PyBool _ | PyInt _ | PyFloat _ => Raise TypeError
  end.

Definition py_len (v : value) : result nat :=
  match v with
  | PyList items => Ok (length items)
  | PyDict entries => Ok (length entries)
  | PyStr s => Ok (length (utf8_chars s))
  | PyNone | PyBool _ | PyInt _ | PyFloat _ => Raise TypeError
  end.

(** [all(k in container for k in keys)]: stops at the first absent key. *)
Fixpoint py_all_in (keys : list string) (container : value) : result bool :=
  match keys with
  | [] => Ok true
  | k :: rest =>
      present <- py_contains k container ;;
      if present then py_all_in rest container else Ok false
  end.

(** ** The schema validator *)

Definition required_top : list string :=
  ["title"; "subtitle"; "questions"; "solution_table"].

Definition option_letters : list string := ["A"; "B"; "C"; "D"].

(** The loop over [required_top]. *)
Fixpoint check_required (data : value) (keys : list string) : result unit :=
  match keys with
  | [] => Ok tt
  | k :: rest =>
      present <- py_contains k data ;;
      if negb present then Raise (ValueError ("Missing top-level key: " ++ k))
      else check_required data rest
  end.

Definition msg_text_options (i : nat) : string :=
  "Question " ++ decimal (Z.of_nat i) ++ " must have 'text' and 'options'".

Definition msg_options_letters (i : nat) : string :=
  "Question " ++ decimal (Z.of_nat i) ++ " options must include A, B, C, D".

(** The body of the loop over the questions, for question number [i]. *)
Definition check_question (i : nat) (q : value) : result unit :=
  has_text <- py_contains "text" q ;;
  incomplete <- (if negb has_text then Ok true
                 else has_options <- py_contains "options" q ;;
                      Ok (negb has_options)) ;;
  if (incomplete : bool) then Raise (ValueError (msg_text_options i))
  else
    opts <- py_getitem q "options" ;;
    unfit <- (if negb (isinstance_dict opts) then Ok true
              else every <- py_all_in option_letters opts ;;
                   Ok (negb every)) ;;
    if (unfit : bool) then Raise (ValueError (msg_options_letters i))
    else Ok tt.

(** [for i, q in enumerate(..., start=i)]. *)
Fixpoint check_questions (i : nat) (qs : list value) : result unit :=
  match qs with
  | [] => Ok tt
  | q :: rest => check_question i q ;;; check_questions (S i) rest
  end.

Definition validate_quiz_schema (data : value) : result bool :=
  check_required data required_top ;;;
  questions <- py_getitem data "questions" ;;
  unfit <- (if negb (isinstance_list questions) then Ok true
            else questions' <- py_getitem data "questions" ;;
                 n <- py_len questions' ;;
                 Ok (n =? 0)%nat) ;;
  if (unfit : bool) then Raise (ValueError "questions must be a non-empty list")
  else
    questions <- py_getitem data "questions" ;;
    qs <- py_iter questions ;;
    check_questions 1 qs ;;;
    solution_table <- py_getitem data "solution_table" ;;
    if negb (isinstance_list solution_table)
    then Raise (ValueError "solution_table must be a list")
    else Ok true.

(** ** Coercion to display text *)

Section Display.

(** [repr] of a [str]: the choice of quotes and the escapes, which
    depend on the Unicode tables, are not modelled. *)
Variable repr_str : string -> string.

(** [repr(v)]. *)
Fixpoint py_repr (v : value) : string :=
  match v with
  | PyNone => "None"
  | PyBool true => "True"
  | PyBool false => "False"
  | PyInt n => decimal n
  | PyFloat r => r
  | PyStr s => repr_str s
  | PyList items => "[" ++ join ", " (map py_repr items) ++ "]"
  | PyDict entries =>
      "{" ++ join ", " (map (fun kv => repr_str (fst kv) ++ ": " ++ py_repr (snd kv))
                            entries) ++ "}"
  end.

(** [str(v)], which is also what an f-string writes for [{v}]. *)
Definition py_str (v : value) : string :=
  match v with
  | PyStr s => s
  | _ => py_repr v
  end.

End Display.

(** ** The story *)

(** Whether a text holds a character ReportLab's paragraph parser reads
    as markup: ['<'] opens a tag, ['&'] an entity. *)
Fixpoint has_markup (s : string) : bool :=
  match s with
  | EmptyString => false
  | String c rest => Ascii.eqb c "<" || Ascii.eqb c "&" || has_markup rest
  end.


(** The five paragraph styles [build_pdf] derives from the sample style
    sheet, under the names of its local variables.  Their fonts, sizes
    and spacings are presentation constants and are not kept. *)
Inductive paragraph_style : Type :=
| title_style
| subtitle_style
| h2
| question_style
| option_style.

(** A length in points, or one written as a multiple of [cm] ([cm] is a
    float number of points; [6 * cm] is kept as 60 mm, [1.5 * cm] as
    15 mm). *)
Inductive length : Type :=
| Pt (n : Z)
| Mm (n : Z).

(** One command of a [TableStyle]: its name, the two cell coordinates
    and the remaining arguments as they are written. *)
Record table_cmd : Type := Cmd {
  cmd_name : string;
  cmd_start : Z * Z;
  cmd_stop : Z * Z;
  cmd_args : list string
}.

(** The flowables [build_pdf] puts in the story.  A [Paragraph] here is
    one ReportLab has built; the call that builds it, which can fail, is
    [new_Paragraph] below.  It keeps the text it was built from. *)
Inductive flowable : Type :=
| Spacer (width : Z) (height : length)
| Paragraph (text : value) (style : paragraph_style)
| PageBreak
| Table (data : list (list string)) (colWidths : list length)
        (style : list table_cmd).

Definition table_header : list string := ["#"; "Answer"; "Explanation"].

Definition table_colWidths : list length := [Mm 15; Mm 20; Mm 130].

Definition table_style : list table_cmd :=
  [ Cmd "GRID" (0, 0)%Z (-1, -1)%Z ["0.5"; "colors.grey"];
    Cmd "BACKGROUND" (0, 0)%Z (-1, 0)%Z ["colors.lightgrey"];
    Cmd "ALIGN" (0, 0)%Z (-1, 0)%Z ["CENTER"];
    Cmd "VALIGN" (0, 0)%Z (-1, -1)%Z ["TOP"];
    Cmd "LEFTPADDING" (0, 0)%Z (-1, -1)%Z ["6"];
    Cmd "RIGHTPADDING" (0, 0)%Z (-1, -1)%Z ["6"];
    Cmd "FONTSIZE" (0, 0)%Z (-1, -1)%Z ["10"] ].

(** What [SimpleDocTemplate] is built with, and the story handed to its
    [build]. *)
Record document : Type := Doc {
  doc_path : string;
  doc_pagesize : string;
  doc_margins : list length;
  doc_title : value;
  doc_story : list flowable
}.

Section Assembler.

Variable repr_str : string -> string.

(** ReportLab's paragraph parser on a text that holds markup: the
    message of the [ValueError] the constructor raises when the parser
    rejects the text, if it does. *)
Variable markup_error : string -> option string.

Abbreviation str := (py_str repr_str).

(** [Paragraph(text, style)].  The constructor splits its text into
    lines, which only a [str] lets it do, and parses it as markup; a
    text with neither ['<'] nor ['&'] is plain text. *)
Definition new_Paragraph (text : value) (style : paragraph_style) : result flowable :=
  match text with
  | PyStr s =>
      if has_markup s then
        match markup_error s with
        | Some msg => Raise (ValueError msg)
        | None => Ok (Paragraph text style)
        end
      else Ok (Paragraph text style)
  | _ => Raise AttributeError
  end.

(** The body of the loop over the questions: [story] comes in and goes
    out, six flowables longer. *)
Definition append_question (story : list flowable) (idx : nat) (q : value)
  : result (list flowable) :=
  text <- py_getitem q "text" ;;
  p <- new_Paragraph (PyStr (decimal (Z.of_nat idx) ++ ". " ++ str text)) question_style ;;
  let story := (story ++ [p])%list in
  opts <- py_getitem q "options" ;;
  a <- py_getitem opts "A" ;;
  p <- new_Paragraph (PyStr ("A) " ++ str a)) option_style ;;
  let story := (story ++ [p])%list in
  b <- py_getitem opts "B" ;;
  p <- new_Paragraph (PyStr ("B) " ++ str b)) option_style ;;
  let story := (story ++ [p])%list in
  c <- py_getitem opts "C" ;;
  p <- new_Paragraph (PyStr ("C) " ++ str c)) option_style ;;
  let story := (story ++ [p])%list in
  d <- py_getitem opts "D" ;;
  p <- new_Paragraph (PyStr ("D) " ++ str d)) option_style ;;
  let story := (story ++ [p])%list in
  Ok (story ++ [Spacer 1 (Pt 4)])%list.

(** [for idx, q in enumerate(..., start=idx)]. *)
Fixpoint append_questions (story : list flowable) (idx : nat) (qs : list value)
  : result (list flowable) :=
  match qs with
  | [] => Ok story
  | q :: rest =>
      story <- append_question story idx q ;;
      append_questions story (S idx) rest
  end.

(** The body of the loop over the solution rows. *)
Definition append_row (table_data : list (list string)) (row : value)
  : result (list (list string)) :=
  num <- py_get row "number" (PyStr "") ;;
  ans <- py_get row "answer" (PyStr "") ;;
  exp <- py_get row "explanation" (PyStr "") ;;
  Ok (table_data ++ [[str num; str ans; str exp]])%list.

Fixpoint append_rows (table_data : list (list string)) (rows : list value)
  : result (list (list string)) :=
  match rows with
  | [] => Ok table_data
  | row :: rest =>
      table_data <- append_row table_data row ;;
      append_rows table_data rest
  end.

(** [build_pdf] from [story = []] to [story.append(tbl)]. *)
Definition build_story (data : value) : result (list flowable) :=
  let story := [] in
  let story := (story ++ [Spacer 1 (Mm 60)])%list in
  title <- py_getitem data "title" ;;
  p <- new_Paragraph title title_style ;;
  let story := (story ++ [p])%list in
  subtitle <- py_getitem data "subtitle" ;;
  p <- new_Paragraph subtitle subtitle_style ;;
  let story := (story ++ [p])%list in
  let story := (story ++ [PageBreak])%list in
  p <- new_Paragraph (PyStr "Questions") h2 ;;
  let story := (story ++ [p])%list in
  let story := (story ++ [Spacer 1 (Pt 6)])%list in
  questions <- py_getitem data "questions" ;;
  qs <- py_iter questions ;;
  story <- append_questions story 1 qs ;;
  let story := (story ++ [PageBreak])%list in
  p <- new_Paragraph (PyStr "Solution Table") h2 ;;
  let story := (story ++ [p])%list in
  let table_data := [table_header] in
  solution_table <- py_get data "solution_table" (PyList []) ;;
  rows <- py_iter solution_table ;;
  table_data <- append_rows table_data rows ;;
  let tbl := Table table_data table_colWidths table_style in
  Ok (story ++ [tbl])%list.

(** [build_pdf]: the story, then the document template it is built
    into.  Writing the file is the layout library's. *)
Definition build_pdf (doc_path : string) (data : value) : result document :=
  story <- build_story data ;;
  title <- py_get data "title" (PyStr "Quiz") ;;
  Ok (Doc doc_path "A4" [Mm 20; Mm 20; Mm 20; Mm 20] title story).

End Assembler.

(** ** The sample *)

Definition SAMPLE_TEMPLATE : value :=
  PyDict
    [ ("title", PyStr "Networking – Practice Quiz (5 Questions)");
      ("subtitle", PyStr "Sample: Basic Concepts");
      ("questions", PyList
        [ PyDict
            [ ("text", PyStr "Which OSI layer is responsible for routing?");
              ("options", PyDict [ ("A", PyStr "Physical"); ("B", PyStr "Network"); ("C", PyStr "Transport"); ("D", PyStr "Application") ]) ];
          PyDict
            [ ("text", PyStr "Which protocol translates domain names to IP addresses?");
              ("options", PyDict [ ("A", PyStr "HTTP"); ("B", PyStr "DNS"); ("C", PyStr "FTP"); ("D", PyStr "SSH") ]) ];
          PyDict
            [ ("text", PyStr "Which device operates primarily at Layer 2 of the OSI model?");
              ("options", PyDict [ ("A", PyStr "Router"); ("B", PyStr "Switch"); ("C", PyStr "Firewall"); ("D", PyStr "Server") ]) ];
          PyDict
            [ ("text", PyStr "Which IP version uses 128-bit addresses?");
              ("options", PyDict [ ("A", PyStr "IPv4"); ("B", PyStr "IPv6"); ("C", PyStr "IPX"); ("D", PyStr "ARP") ]) ];
          PyDict
            [ ("text", PyStr "Which transport protocol provides reliable, connection‑oriented delivery?");
              ("options", PyDict [ ("A", PyStr "ICMP"); ("B", PyStr "UDP"); ("C", PyStr "TCP"); ("D", PyStr "ARP") ]) ] ]);
      ("solution_table", PyList
        [ PyDict [ ("number", PyInt 1); ("answer", PyStr "B"); ("explanation", PyStr "Routing happens at the OSI Network (Layer 3).") ];
          PyDict [ ("number", PyInt 2); ("answer", PyStr "B"); ("explanation", PyStr "DNS resolves domain names to IP addresses.") ];
          PyDict [ ("number", PyInt 3); ("answer", PyStr "B"); ("explanation", PyStr "Switches primarily operate at Layer 2 (Data Link).") ];
          PyDict [ ("number", PyInt 4); ("answer", PyStr "B"); ("explanation", PyStr "IPv6 uses 128‑bit addresses.") ];
          PyDict [ ("number", PyInt 5); ("answer", PyStr "C"); ("explanation", PyStr "TCP is reliable and connection‑oriented.") ] ]) ].

(** ** The application *)

(** What the two callbacks of [App] show or start, in the order they do
    it.  [showerror] keeps the exception its message is formatted from
    (the message prints it, and for a failed generation the traceback as
    well); [doc_build] is the call [doc.build(story)] on the template
    [build_pdf] set up. *)
Inductive gui_event : Type :=
| askopenfilename
| asksaveasfilename
| showwarning (title message : string)
| showerror (title : string) (e : exn)
| showinfo (title message : string)
| doc_build (d : document).

Definition newline : string := String (ascii_of_nat 10) EmptyString.

Section App.

Variable repr_str : string -> string.
Variable markup_error : string -> option string.

(** [str.strip()]. *)
Variable strip : string -> string.

(** [json.loads]. *)
Variable loads : string -> result value.

(** [open(path, "r", encoding="utf-8")] and [f.read()]. *)
Variable read : string -> result string.

(** [SimpleDocTemplate.build]: lays the story out and writes the file. *)
Variable render : document -> result unit.

(** [self.text.get("1.0", END)]: the text area's content, which Tk ends
    with a newline of its own. *)
Definition text_get (text : string) : string := text ++ newline.

(** [App.generate_pdf], on the content [text] of the text area; [out_path]
    is what the save dialog answers if it is shown, empty when the user
    cancels. *)
Definition generate_pdf (text out_path : string) : list gui_event :=
  let raw := strip (text_get text) in
  if String.eqb raw "" then
    [showwarning "Empty" "Please paste a JSON object first."]
  else
    match (data <- loads raw ;; validate_quiz_schema data ;;; Ok data) with
    | Raise e => [showerror "Invalid JSON" e]
    | Ok data =>
        asksaveasfilename ::
        if String.eqb out_path "" then []
        else
          match build_pdf repr_str markup_error out_path data with
          | Raise e => [showerror "Error" e]
          | Ok d =>
              doc_build d ::
              match render d with
              | Raise e => [showerror "Error" e]
              | Ok _ => [showinfo "Success" ("PDF saved:" ++ newline ++ out_path)]
              end
          end
    end.

(** [App.open_json_file], on the content [text] of the text area; [path]
    is what the open dialog answers, empty when the user cancels.  The
    new content of the text area comes with the events. *)
Definition open_json_file (text path : string) : string * list gui_event :=
  if String.eqb path "" then (text, [askopenfilename])
  else
    match (content <- read path ;; loads content ;;; Ok content) with
    | Raise e => (text, [askopenfilename; showerror "Error" e])
    | Ok content => (content, [askopenfilename])
    end.

End App.

(** ** The story construction over the store *)

(** What a call of [build_pdf] can reach and change: the quiz object its
    [data] parameter refers to, and the list its local [story] refers
    to.  A step takes the store and gives its outcome and the store it
    leaves, also when it raises. *)
Record store : Type := Store {
  st_quiz : value;
  st_story : list flowable
}.

Definition M (A : Type) : Type := store -> result A * store.

Definition bindM {A B : Type} (m : M A) (k : A -> M B) : M B :=
  fun s =>
    match m s with
    | (Ok a, s') => k a s'
    | (Raise e, s') => (Raise e, s')
    end.

Notation "x <~ m ;; k" := (bindM m (fun x => k))
  (at level 61, m at next level, right associativity) : py_scope.
Notation "m ;;~ k" := (bindM m (fun _ => k))
  (at level 61, right associativity) : py_scope.

(** A step that only computes. *)
Definition lift {A : Type} (r : result A) : M A := fun s => (r, s).

(** Reading through [data]. *)
Definition read_data : M value := fun s => (Ok (st_quiz s), s).

(** [story = []]. *)
Definition story_new : M unit := fun s => (Ok tt, Store (st_quiz s) []).

(** [story.append(f)]. *)
Definition story_append (f : flowable) : M unit :=
  fun s => (Ok tt, Store (st_quiz s) (st_story s ++ [f])).

Definition read_story : M (list flowable) := fun s => (Ok (st_story s), s).

Section AssemblerOverStore.

Variable repr_str : string -> string.
Variable markup_error : string -> option string.

Definition append_paragraph (text : value) (style : paragraph_style) : M unit :=
  p <~ lift (new_Paragraph markup_error text style) ;;
  story_append p.

(** Lines 139 to 145, for question [q] numbered [idx]. *)
Definition append_question_st (idx : nat) (q : value) : M unit :=
  text <~ lift (py_getitem q "text") ;;
  append_paragraph (PyStr (decimal (Z.of_nat idx) ++ ". " ++ py_str repr_str text))
                   question_style ;;~
  opts <~ lift (py_getitem q "options") ;;
  a <~ lift (py_getitem opts "A") ;;
  append_paragraph (PyStr ("A) " ++ py_str repr_str a)) option_style ;;~
  b <~ lift (py_getitem opts "B") ;;
  append_paragraph (PyStr ("B) " ++ py_str repr_str b)) option_style ;;~
  c <~ lift (py_getitem opts "C") ;;
  append_paragraph (PyStr ("C) " ++ py_str repr_str c)) option_style ;;~
  d <~ lift (py_getitem opts "D") ;;
  append_paragraph (PyStr ("D) " ++ py_str repr_str d)) option_style ;;~
  story_append (Spacer 1 (Pt 4)).

Fixpoint append_questions_st (idx : nat) (qs : list value) : M unit :=
  match qs with
  | [] => lift (Ok tt)
  | q :: rest => append_question_st idx q ;;~ append_questions_st (S idx) rest
  end.

(** Lines 126 to 171; the rows go into the local [table_data], which
    [append_rows] stands for. *)
Definition build_story_st : M (list flowable) :=
  story_new ;;~
  story_append (Spacer 1 (Mm 60)) ;;~
  data <~ read_data ;;
  title <~ lift (py_getitem data "title") ;;
  append_paragraph title title_style ;;~
  data <~ read_data ;;
  subtitle <~ lift (py_getitem data "subtitle") ;;
  append_paragraph subtitle subtitle_style ;;~
  story_append PageBreak ;;~
  append_paragraph (PyStr "Questions") h2 ;;~
  story_append (Spacer 1 (Pt 6)) ;;~
  data <~ read_data ;;
  questions <~ lift (py_getitem data "questions") ;;
  qs <~ lift (py_iter questions) ;;
  append_questions_st 1 qs ;;~
  story_append PageBreak ;;~
  append_paragraph (PyStr "Solution Table") h2 ;;~
  data <~ read_data ;;
  solution_table <~ lift (py_get data "solution_table" (PyList [])) ;;
  rows <~ lift (py_iter solution_table) ;;
  table_data <~ lift (append_rows repr_str [table_header] rows) ;;
  story_append (Table table_data table_colWidths table_style) ;;~
  read_story.

End AssemblerOverStore.

(** ** What the statements speak of *)

(** A question the validator lets through: a mapping with a [text], and
    with [options] a mapping that has the four letters. *)
Definition well_formed_question (q : value) : Prop :=
  exists entries text opts,
    q = PyDict entries /\
    lookup "text" entries = Some text /\
    lookup "options" entries = Some (PyDict opts) /\
    Forall (fun k => has_key k opts = true) option_letters.

(** The four top-level keys are there. *)
Definition has_required_top (entries : list (string * value)) : Prop :=
  Forall (fun k => has_key k entries = true) required_top.

(** A mapping without [text] or without [options]. *)
Definition lacks_text_or_options (q : value) : bool :=
  match q with
  | PyDict entries => negb (has_key "text" entries && has_key "options" entries)
  | _ => false
  end.

(** A mapping with both, whose [options] is not a mapping with the four
    letters. *)
Definition has_unfit_options (q : value) : bool :=
  match q with
  | PyDict entries =>
      has_key "text" entries &&
      match lookup "options" entries with
      | Some (PyDict opts) => negb (forallb (fun k => has_key k opts) option_letters)
      | Some _ => true
      | None => false
      end
  | _ => false
  end.

(** The 1-based position, counted from [i], of the first element [p]
    holds of. *)
Fixpoint first_position (p : value -> bool) (i : nat) (qs : list value) : option nat :=
  match qs with
  | [] => None
  | q :: rest => if p q then Some i else first_position p (S i) rest
  end.

(** The order of checks 3 and 4 as the listed order has it: on a mapping
    with the four keys whose [questions] is a list, the first question
    without [text] or [options] is the one reported, whatever the
    [options] of the questions before it. *)
Definition presence_check_runs_first (data : value) : Prop :=
  forall entries qs j,
    data = PyDict entries ->
    has_required_top entries ->
    lookup "questions" entries = Some (PyList qs) ->
    first_position lacks_text_or_options 1 qs = Some j ->
    validate_quiz_schema data = Raise (ValueError (msg_text_options j)).

Definition questions_out_of_order : value :=
  PyDict
    [ ("title", PyStr "t");
      ("subtitle", PyStr "s");
      ("questions", PyList
        [ PyDict [ ("text", PyStr "first"); ("options", PyDict []) ];
          PyDict [] ]);
      ("solution_table", PyList []) ].

Definition question_not_a_mapping : value :=
  PyDict
    [ ("title", PyStr "t");
      ("subtitle", PyStr "s");
      ("questions", PyList [ PyInt 5 ]);
      ("solution_table", PyList []) ].

Definition row_not_a_mapping : value :=
  PyDict
    [ ("title", PyStr "t");
      ("subtitle", PyStr "s");
      ("questions", PyList
        [ PyDict [ ("text", PyStr "q");
                   ("options", PyDict [ ("A", PyStr "a"); ("B", PyStr "b");
                                        ("C", PyStr "c"); ("D", PyStr "d") ]) ] ]);
      ("solution_table", PyList [ PyInt 5 ]) ].

Definition two_keys_only : list (string * value) :=
  [ ("title", PyStr "t"); ("questions", PyList []) ].

Definition empty_questions_sample : list (string * value) :=
  [ ("solution_table", PyInt 7); ("questions", PyList []);
    ("subtitle", PyNone); ("title", PyStr "t") ].

Definition second_question_incomplete : list (string * value) :=
  [ ("title", PyStr "t");
    ("subtitle", PyStr "s");
    ("questions", PyList
      [ PyDict [ ("options", PyDict [ ("D", PyStr "d"); ("C", PyStr "c");
                                      ("B", PyStr "b"); ("A", PyStr "a") ]);
                 ("text", PyStr "first") ];
        PyDict [ ("options", PyDict []) ];
        PyInt 0 ]);
    ("solution_table", PyList []) ].

Section Rendering.

Variable repr_str : string -> string.

(** The six flowables of question number [i]: the stem, the four options
    in the order A, B, C, D, and the small spacer. *)
Definition question_group (i : nat) (text a b c d : value) : list flowable :=
  [ Paragraph (PyStr (decimal (Z.of_nat i) ++ ". " ++ py_str repr_str text)) question_style;
    Paragraph (PyStr ("A) " ++ py_str repr_str a)) option_style;
    Paragraph (PyStr ("B) " ++ py_str repr_str b)) option_style;
    Paragraph (PyStr ("C) " ++ py_str repr_str c)) option_style;
    Paragraph (PyStr ("D) " ++ py_str repr_str d)) option_style;
    Spacer 1 (Pt 4) ].

(** [group_of i q g]: [g] is the group of question [q], numbered [i],
    with the text and the options read from [q] by key. *)
Inductive group_of (i : nat) (q : value) : list flowable -> Prop :=
| group_of_question entries opts text a b c d :
    q = PyDict entries ->
    lookup "text" entries = Some text ->
    lookup "options" entries = Some (PyDict opts) ->
    lookup "A" opts = Some a ->
    lookup "B" opts = Some b ->
    lookup "C" opts = Some c ->
    lookup "D" opts = Some d ->
    group_of i q (question_group i text a b c d).

(** [groups_of i qs gs]: [gs] lists one group per question of [qs], in
    order, numbered from [i]. *)
Inductive groups_of : nat -> list value -> list (list flowable) -> Prop :=
| groups_of_nil i : groups_of i [] []
| groups_of_cons i q qs g gs :
    group_of i q g ->
    groups_of (S i) qs gs ->
    groups_of i (q :: qs) (g :: gs).

(** The display text of field [k] of a solution row: [str] of the field,
    and the empty text when the row has no such field. *)
Definition cell (row : list (string * value)) (k : string) : string :=
  match lookup k row with
  | Some v => py_str repr_str v
  | None => EmptyString
  end.

Definition row_cells (row : list (string * value)) : list string :=
  [cell row "number"; cell row "answer"; cell row "explanation"].

End Rendering.

(** What the story starts with, up to the spacer under the heading of
    the questions, and what it ends with. *)
Definition front_matter (title subtitle : value) : list flowable :=
  [ Spacer 1 (Mm 60);
    Paragraph title title_style;
    Paragraph subtitle subtitle_style;
    PageBreak;
    Paragraph (PyStr "Questions") h2;
    Spacer 1 (Pt 6) ].

Definition back_matter (table_data : list (list string)) : list flowable :=
  [ PageBreak;
    Paragraph (PyStr "Solution Table") h2;
    Table table_data table_colWidths table_style ].

Definition is_table (f : flowable) : bool :=
  match f with Table _ _ _ => true | _ => false end.

Definition is_page_break (f : flowable) : bool :=
  match f with PageBreak => true | _ => false end.

(** A paragraph of a question: its stem or one of its options. *)
Definition is_body_paragraph (f : flowable) : bool :=
  match f with
  | Paragraph _ question_style | Paragraph _ option_style => true
  | _ => false
  end.

Definition count (p : flowable -> bool) (story : list flowable) : nat :=
  List.length (filter p story).

(** Two questions that differ at most in the order of the entries of
    their [options], and in entries other than [text] and [options]. *)
Definition same_up_to_option_order (q q' : value) : Prop :=
  exists entries entries' opts opts',
    q = PyDict entries /\ q' = PyDict entries' /\
    lookup "text" entries' = lookup "text" entries /\
    lookup "options" entries = Some (PyDict opts) /\
    lookup "options" entries' = Some (PyDict opts') /\
    NoDup (map fst opts) /\
    Permutation opts opts'.

(** Two quizzes with the same title, subtitle and solution table, whose
    questions are pairwise the same up to the order of their options. *)
Definition same_quiz_up_to_option_order (data data' : value) : Prop :=
  exists entries entries' qs qs',
    data = PyDict entries /\ data' = PyDict entries' /\
    lookup "title" entries' = lookup "title" entries /\
    lookup "subtitle" entries' = lookup "subtitle" entries /\
    lookup "solution_table" entries' = lookup "solution_table" entries /\
    lookup "questions" entries = Some (PyList qs) /\
    lookup "questions" entries' = Some (PyList qs') /\
    Forall2 same_up_to_option_order qs qs'.

(** The story of a built document. *)
Definition story_of (r : result document) : result (list flowable) :=
  d <- r ;; Ok (doc_story d).

(** [repr] of a [str] made of printable ASCII with no quote and no
    backslash: the text between single quotes. *)
Definition plain_repr (s : string) : string := "'" ++ s ++ "'".

Definition small_questions : list value :=
  [ PyDict [ ("options", PyDict [ ("D", PyStr "four"); ("B", PyInt 2);
                                  ("A", PyStr "one"); ("C", PyNone) ]);
             ("text", PyStr "Pick one") ] ].

Definition small_rows : list (list (string * value)) :=
  [ [ ("number", PyInt 1); ("answer", PyStr "B") ]; [] ].

Definition small_quiz : value :=
  PyDict
    [ ("title", PyStr "t");
      ("subtitle", PyStr "s");
      ("questions", PyList small_questions);
      ("solution_table", PyList (map PyDict small_rows)) ].

(** A flowable ReportLab builds: a paragraph whose constructor call
    succeeds, or anything else. *)
Definition accepted (markup_error : string -> option string) (f : flowable) : Prop :=
  match f with
  | Paragraph text style => new_Paragraph markup_error text style = Ok f
  | _ => True
  end.

(** Two parsers to run the assembler with: one that takes every markup,
    one that takes none. *)
Definition accept_markup (s : string) : option string := None.

Definition reject_markup (s : string) : option string :=
  Some "xml parser error".

Definition title_is_a_number : value :=
  PyDict
    [ ("title", PyInt 5);
      ("subtitle", PyStr "s");
      ("questions", PyList small_questions);
      ("solution_table", PyList []) ].

(** The story of every accepted quiz holds the groups of its questions:
    in particular, there is a story. *)
Definition builds_question_groups (repr_str : string -> string)
    (markup_error : string -> option string) (data : value) : Prop :=
  validate_quiz_schema data = Ok true ->
  exists qs gs front back,
    py_getitem data "questions" = Ok (PyList qs) /\
    groups_of repr_str 1 qs gs /\
    build_story repr_str markup_error data = Ok (front ++ concat gs ++ back)%list.

(** The story of every accepted quiz ends with a table. *)
Definition builds_solution_table (repr_str : string -> string)
    (markup_error : string -> option string) (data : value) : Prop :=
  validate_quiz_schema data = Ok true ->
  exists front table_data,
    build_story repr_str markup_error data =
      Ok (front ++ [Table table_data table_colWidths table_style])%list.

(** How a step over the store follows a function on the story: the story
    it leaves when the function gives one, the exception otherwise, and
    the quiz untouched either way. *)
Definition follows (m : M unit)
    (f : list flowable -> result (list flowable)) : Prop :=
  forall s,
    match f (st_story s) with
    | Ok story' => m s = (Ok tt, Store (st_quiz s) story')
    | Raise e => fst (m s) = Raise e /\ st_quiz (snd (m s)) = st_quiz s
    end.

(** A message box. *)
Definition is_message_box (ev : gui_event) : bool :=
  match ev with
  | showwarning _ _ | showerror _ _ | showinfo _ _ => true
  | _ => false
  end.

Definition is_spacer (f : flowable) : bool :=
  match f with Spacer _ _ => true | _ => false end.

(** The keys [build_pdf] reads by subscription. *)
Definition subscripted_keys : list string :=
  ["title"; "subtitle"; "questions"; "text"; "options"; "A"; "B"; "C"; "D"].

Definition third_question_unfit : value :=
  PyDict
    [ ("title", PyStr "t");
      ("subtitle", PyStr "s");
      ("questions", PyList (small_questions ++ small_questions ++
                            [ PyDict [ ("text", PyStr "q"); ("options", PyList []) ] ]));
      ("solution_table", PyList []) ].

Definition small_quiz_entries : list (string * value) :=
  [ ("title", PyStr "t");
    ("subtitle", PyStr "s");
    ("questions", PyList small_questions);
    ("solution_table", PyList (map PyDict small_rows)) ].

(** The same quiz with other values for title and subtitle, one more
    key, other rows, and the entries in another order. *)
Definition small_quiz_variant : list (string * value) :=
  [ ("solution_table", PyList [ PyInt 5 ]);
    ("comment", PyNone);
    ("questions", PyList small_questions);
    ("subtitle", PyInt 2);
    ("title", PyList []) ].

Definition small_quiz_reversed : list (string * value) :=
  [ ("solution_table", PyList (map PyDict small_rows));
    ("questions", PyList small_questions);
    ("subtitle", PyStr "s");
    ("title", PyStr "t") ].

Fixpoint has_space (s : string) : bool :=
  match s with
  | EmptyString => false
  | String c rest => Ascii.eqb c " " || has_space rest
  end.

Definition quiz_without_solution_table : list (string * value) :=
  [ ("questions", PyList small_questions);
    ("title", PyStr "t");
    ("subtitle", PyStr "s") ].

(** Stand-ins for the four collaborators of [App], for running the
    callbacks on small inputs: a [strip] that removes the final newline
    only, a [loads] that knows three texts, a [read] that knows two
    files, and a [render] that fails on one path. *)
Fixpoint drop_final_newline (s : string) : string :=
  match s with
  | EmptyString => EmptyString
  | String c rest =>
      if String.eqb rest newline then String c EmptyString
      else String c (drop_final_newline rest)
  end.

Definition strip_stub (s : string) : string :=
  if String.eqb s newline then EmptyString else drop_final_newline s.

Definition loads_stub (s : string) : result value :=
  if String.eqb s "small" then Ok small_quiz
  else if String.eqb s "rows" then Ok row_not_a_mapping
  else if String.eqb s "{}" then Ok (PyDict [])
  else Raise (ValueError "Expecting value").

Definition read_stub (path : string) : result string :=
  if String.eqb path "empty.json" then Ok "{}"
  else if String.eqb path "small.json" then Ok "small"
  else Raise TypeError.

Definition render_stub (d : document) : result unit :=
  if String.eqb d.(doc_path) "/" then Raise TypeError else Ok tt.

(** ** The model on small inputs *)

Example decimal_of_minus_twelve : decimal (-12) = "-12".
Proof. reflexivity. Qed.

Example chars_of_a_text_with_a_dash : utf8_chars "a–b" = ["a"; "–"; "b"].
Proof. reflexivity. Qed.

Example str_of_a_nested_value :
  py_str plain_repr (PyList [PyInt 1; PyStr "a"; PyDict [("k", PyNone)]; PyBool true])
  = "[1, 'a', {'k': None}, True]".
Proof. reflexivity. Qed.

(** A list that holds the four key names passes the membership tests
    and fails at the subscription. *)
Example validate_list_of_key_names :
  validate_quiz_schema
    (PyList [PyStr "title"; PyStr "subtitle"; PyStr "questions"; PyStr "solution_table"])
  = Raise TypeError.
Proof. reflexivity. Qed.

Example validate_number : validate_quiz_schema (PyInt 5) = Raise TypeError.
Proof. reflexivity. Qed.

Example validate_solution_table_not_a_list :
  validate_quiz_schema
    (PyDict [ ("title", PyStr "t"); ("subtitle", PyStr "s");
              ("questions", PyList small_questions);
              ("solution_table", PyDict []) ])
  = Raise (ValueError "solution_table must be a list").
Proof. reflexivity. Qed.

(** ** The validator: lemmas *)

Lemma has_key_lookup k entries :
  has_key k entries = true <-> exists v, lookup k entries = Some v.
Proof.
  unfold has_key. destruct (lookup k entries) as [v|].
  - split; [eauto | reflexivity].
  - split; [discriminate | intros [v H]; discriminate].
Qed.

Lemma has_key_false k entries :
  has_key k entries = false <-> lookup k entries = None.
Proof.
  unfold has_key. destruct (lookup k entries); split; congruence.
Qed.

Lemma check_required_dict entries keys :
  check_required (PyDict entries) keys =
  match find (fun k => negb (has_key k entries)) keys with
  | Some k => Raise (ValueError ("Missing top-level key: " ++ k))
  | None => Ok tt
  end.
Proof.
  induction keys as [|k rest IH]; cbn; [reflexivity|].
  destruct (has_key k entries); cbn; [exact IH | reflexivity].
Qed.

Lemma check_required_present entries :
  has_required_top entries -> check_required (PyDict entries) required_top = Ok tt.
Proof.
  intros H. rewrite check_required_dict.
  destruct (find _ required_top) as [k|] eqn:F; [|reflexivity].
  apply find_some in F as [Hin Hk].
  unfold has_required_top in H. rewrite Forall_forall in H.
  rewrite (H k Hin) in Hk. discriminate.
Qed.

Lemma py_all_in_dict keys opts :
  py_all_in keys (PyDict opts) = Ok (forallb (fun k => has_key k opts) keys).
Proof.
  induction keys as [|k rest IH]; cbn; [reflexivity|].
  destruct (has_key k opts); cbn; [exact IH | reflexivity].
Qed.

Lemma forallb_has_key keys opts :
  forallb (fun k => has_key k opts) keys = true <->
  Forall (fun k => has_key k opts = true) keys.
Proof.
  rewrite forallb_forall, Forall_forall. reflexivity.
Qed.

(** The loop body on a mapping, by cases on what the mapping holds. *)
Lemma check_question_dict i entries :
  check_question i (PyDict entries) =
  if lacks_text_or_options (PyDict entries)
  then Raise (ValueError (msg_text_options i))
  else if has_unfit_options (PyDict entries)
       then Raise (ValueError (msg_options_letters i))
       else Ok tt.
Proof.
  unfold check_question, lacks_text_or_options, has_unfit_options.
  cbn -[py_all_in forallb].
  destruct (has_key "text" entries) eqn:Ht; cbn -[py_all_in forallb]; [|reflexivity].
  unfold has_key at 1 2.
  destruct (lookup "options" entries) as [o|] eqn:Ho; cbn -[py_all_in forallb];
    [|reflexivity].
  destruct o; cbn -[py_all_in forallb]; try reflexivity.
  rewrite py_all_in_dict. cbn -[forallb].
  destruct (forallb _ option_letters); reflexivity.
Qed.

Lemma check_question_ok i q :
  check_question i q = Ok tt <-> well_formed_question q.
Proof.
  split.
  - intros H. destruct q as [| b | n | r | s | items | entries].
    1-4: discriminate H.
    + unfold check_question in H. cbn in H.
      destruct (is_substring "text" s); cbn in H; [|discriminate].
      destruct (is_substring "options" s); cbn in H; discriminate.
    + unfold check_question in H. cbn in H.
      destruct (existsb _ items); cbn in H; [|discriminate].
      destruct (existsb _ items); cbn in H; discriminate.
    + rewrite check_question_dict in H.
      unfold lacks_text_or_options, has_unfit_options in H.
      destruct (has_key "text" entries) eqn:Ht; cbn -[forallb] in H; [|discriminate].
      destruct (has_key "options" entries) eqn:Ho; cbn -[forallb] in H; [|discriminate].
      apply has_key_lookup in Ht as [text Ht].
      apply has_key_lookup in Ho as [o Ho]. rewrite Ho in H.
      destruct o as [| | | | | | opts]; try discriminate.
      destruct (forallb _ option_letters) eqn:Hf; [|discriminate].
      exists entries, text, opts. repeat split; try assumption.
      apply forallb_has_key. exact Hf.
  - intros (entries & text & opts & -> & Ht & Ho & Hf).
    rewrite check_question_dict. unfold lacks_text_or_options, has_unfit_options.
    assert (has_key "text" entries = true) as -> by (apply has_key_lookup; eauto).
    assert (has_key "options" entries = true) as -> by (apply has_key_lookup; eauto).
    rewrite Ho. apply forallb_has_key in Hf. rewrite Hf. reflexivity.
Qed.

Lemma check_questions_ok i qs :
  check_questions i qs = Ok tt <-> Forall well_formed_question qs.
Proof.
  revert i. induction qs as [|q rest IH]; intros i; cbn.
  - split; [constructor | reflexivity].
  - split.
    + intros H. destruct (check_question i q) as [[]|e] eqn:Hq; [|discriminate].
      cbn in H. constructor.
      * apply (check_question_ok i). exact Hq.
      * apply (IH (S i)). exact H.
    + intros H. inversion H as [|q' rest' Hq Hrest]; subst.
      apply (check_question_ok i) in Hq. rewrite Hq. cbn.
      apply IH. exact Hrest.
Qed.

(** The loop stops at the first question that is not well formed. *)
Lemma check_questions_app i pre q post :
  Forall well_formed_question pre ->
  check_questions i (pre ++ q :: post) =
  (check_question (i + List.length pre) q ;;; check_questions (S (i + List.length pre)) post).
Proof.
  revert i. induction pre as [|p pre IH]; intros i H; cbn.
  - rewrite Nat.add_0_r. reflexivity.
  - inversion H as [|p' pre' Hp Hpre]; subst.
    apply (check_question_ok i) in Hp. rewrite Hp. cbn.
    rewrite (IH (S i) Hpre). cbn. rewrite Nat.add_succ_r. reflexivity.
Qed.

(** The validator on a mapping that has the four keys and a non-empty
    list of questions: what is left is the loop and the last check. *)
Lemma validate_reaches_loop entries q qs :
  has_required_top entries ->
  lookup "questions" entries = Some (PyList (q :: qs)) ->
  validate_quiz_schema (PyDict entries) =
  (check_questions 1 (q :: qs) ;;;
   solution_table <- py_getitem (PyDict entries) "solution_table" ;;
   if negb (isinstance_list solution_table)
   then Raise (ValueError "solution_table must be a list")
   else Ok true).
Proof.
  intros Htop Hq. unfold validate_quiz_schema.
  rewrite (check_required_present _ Htop).
  cbn [bind py_getitem]. rewrite Hq. reflexivity.
Qed.

(** [k in data] is defined for every [k] once it is for one. *)
Lemma py_contains_defined k data b :
  py_contains k data = Ok b -> forall k', exists b', py_contains k' data = Ok b'.
Proof.
  intros H k'. destruct data; try discriminate H; cbn; eexists; reflexivity.
Qed.

(** What a value the validator accepts looks like. *)
Lemma validate_ok_inv data b :
  validate_quiz_schema data = Ok b ->
  exists entries q qs rows,
    data = PyDict entries /\
    has_required_top entries /\
    lookup "questions" entries = Some (PyList (q :: qs)) /\
    Forall well_formed_question (q :: qs) /\
    lookup "solution_table" entries = Some (PyList rows) /\
    b = true.
Proof.
  intros H. unfold validate_quiz_schema in H.
  destruct (check_required data required_top) as [[]|e] eqn:Hc; [|discriminate H].
  cbn [bind] in H.
  destruct data as [| b0 | n | r | s | items | entries]; try discriminate H.
  rewrite check_required_dict in Hc.
  destruct (find _ required_top) as [k|] eqn:Hf; [discriminate Hc|].
  assert (Htop : has_required_top entries).
  { unfold has_required_top. apply Forall_forall. intros k Hk.
    apply (find_none _ _ Hf) in Hk. destruct (has_key k entries); [reflexivity|discriminate]. }
  cbn [py_getitem] in H.
  destruct (lookup "questions" entries) as [questions|] eqn:Hq; [|discriminate H].
  cbn [bind] in H.
  destruct questions as [| | | | | qs |]; try discriminate H.
  destruct qs as [|q qs]; [discriminate H|].
  cbn [bind isinstance_list negb py_len py_iter List.length Nat.eqb] in H.
  destruct (check_questions 1 (q :: qs)) as [[]|e] eqn:Hl; [|discriminate H].
  cbn [bind] in H.
  destruct (lookup "solution_table" entries) as [st|] eqn:Hs; [|discriminate H].
  cbn [bind] in H.
  destruct st as [| | | | | rows |]; try discriminate H.
  cbn in H. injection H as <-.
  exists entries, q, qs, rows. repeat split; try assumption.
  apply (check_questions_ok 1). exact Hl.
Qed.

(** The converse: such a value is accepted. *)
Lemma validate_ok_intro entries q qs rows :
  has_required_top entries ->
  lookup "questions" entries = Some (PyList (q :: qs)) ->
  Forall well_formed_question (q :: qs) ->
  lookup "solution_table" entries = Some (PyList rows) ->
  validate_quiz_schema (PyDict entries) = Ok true.
Proof.
  intros Htop Hq Hwf Hs.
  rewrite (validate_reaches_loop _ _ _ Htop Hq).
  apply (check_questions_ok 1) in Hwf. rewrite Hwf.
  cbn [bind py_getitem]. rewrite Hs. reflexivity.
Qed.

(** On a mapping whose questions are all mappings the validator ends
    with its verdict or with one of its own messages. *)
Lemma validate_verdict_on_mappings entries :
  (forall qs, lookup "questions" entries = Some (PyList qs) ->
              Forall (fun q => isinstance_dict q = true) qs) ->
  validate_quiz_schema (PyDict entries) = Ok true \/
  exists msg, validate_quiz_schema (PyDict entries) = Raise (ValueError msg).
Proof.
  intros Hqs. unfold validate_quiz_schema.
  rewrite check_required_dict.
  destruct (find _ required_top) as [k|] eqn:Hf; [right; eexists; reflexivity|].
  assert (Htop : has_required_top entries).
  { unfold has_required_top. apply Forall_forall. intros k Hk.
    apply (find_none _ _ Hf) in Hk. destruct (has_key k entries); [reflexivity|discriminate]. }
  unfold has_required_top, required_top in Htop.
  inversion Htop as [|? ? _ H1]; subst. inversion H1 as [|? ? _ H2]; subst.
  inversion H2 as [|? ? Hkq H3]; subst. inversion H3 as [|? ? Hks _]; subst.
  apply has_key_lookup in Hkq as [questions Hq].
  apply has_key_lookup in Hks as [st Hs].
  cbn [bind py_getitem]. rewrite Hq. cbn [bind].
  destruct questions as [| | | | | qs |];
    try (right; eexists; reflexivity).
  destruct qs as [|q qs]; [right; eexists; reflexivity|].
  cbn [bind isinstance_list negb py_len py_iter List.length Nat.eqb].
  specialize (Hqs _ Hq).
  assert (Hloop : forall i l, Forall (fun q => isinstance_dict q = true) l ->
            check_questions i l = Ok tt \/
            exists msg, check_questions i l = Raise (ValueError msg)).
  { intros i l. revert i. induction l as [|x l IH]; intros i Hl; [left; reflexivity|].
    inversion Hl as [|? ? Hx Hl']; subst. cbn [check_questions].
    destruct x; try discriminate Hx. rewrite check_question_dict.
    destruct (lacks_text_or_options _); [right; eexists; reflexivity|].
    destruct (has_unfit_options _); [right; eexists; reflexivity|].
    cbn [bind]. apply IH. exact Hl'. }
  destruct (Hloop 1 _ Hqs) as [-> | [msg ->]]; [|right; eexists; reflexivity].
  cbn [bind]. rewrite Hs. cbn [bind].
  destruct st; try (right; eexists; reflexivity).
  left. reflexivity.
Qed.

(** ** The validator: theorems *)

(** C4.  A value that lacks one of the four required top-level keys,
    that is, for which [k in data] is false for one of them, is rejected
    with the message naming the first key, in the order title, subtitle,
    questions, solution_table, that it lacks: the keys before it are all
    there, and the validator's outcome is that one message. *)
Theorem first_missing_top_level_key_is_reported data :
  (exists k, In k required_top /\ py_contains k data = Ok false) ->
  exists pre k post,
    required_top = (pre ++ k :: post)%list /\
    Forall (fun k' => py_contains k' data = Ok true) pre /\
    py_contains k data = Ok false /\
    validate_quiz_schema data =
      Raise (ValueError ("Missing top-level key: " ++ k)).
Proof.
  intros (k & Hin & Hk).
  pose proof (py_contains_defined _ _ _ Hk) as Hdef.
  unfold validate_quiz_schema, required_top in *. cbn [check_required].
  destruct (Hdef "title") as [[|] H1]; rewrite H1; cbn [bind negb].
  2:{ exists [], "title", ["subtitle"; "questions"; "solution_table"].
      repeat split; auto. }
  destruct (Hdef "subtitle") as [[|] H2]; rewrite H2; cbn [bind negb].
  2:{ exists ["title"], "subtitle", ["questions"; "solution_table"].
      repeat split; auto. }
  destruct (Hdef "questions") as [[|] H3]; rewrite H3; cbn [bind negb].
  2:{ exists ["title"; "subtitle"], "questions", ["solution_table"].
      repeat split; auto. }
  destruct (Hdef "solution_table") as [[|] H4]; rewrite H4; cbn [bind negb].
  2:{ exists ["title"; "subtitle"; "questions"], "solution_table", [].
      repeat split; auto. }
  exfalso. cbn in Hin. destruct Hin as [<-|[<-|[<-|[<-|[]]]]]; congruence.
Qed.

Lemma first_missing_top_level_key_is_reported_witness :
  exists pre k post,
    required_top = (pre ++ k :: post)%list /\
    Forall (fun k' => py_contains k' (PyDict two_keys_only) = Ok true) pre /\
    py_contains k (PyDict two_keys_only) = Ok false /\
    validate_quiz_schema (PyDict two_keys_only) =
      Raise (ValueError ("Missing top-level key: " ++ k)).
Proof.
  apply (first_missing_top_level_key_is_reported (PyDict two_keys_only)).
  exists "subtitle". split; [cbn; auto | reflexivity].
Defined.

(** C5.  A mapping that has the four top-level keys and whose questions
    is the empty list is rejected with the non-empty message, whatever
    the other fields hold. *)
Theorem empty_questions_rejected entries :
  has_required_top entries ->
  lookup "questions" entries = Some (PyList []) ->
  validate_quiz_schema (PyDict entries) =
    Raise (ValueError "questions must be a non-empty list").
Proof.
  intros Htop Hq. unfold validate_quiz_schema.
  rewrite (check_required_present _ Htop).
  cbn [bind py_getitem]. rewrite Hq. reflexivity.
Qed.

Lemma empty_questions_rejected_witness :
  validate_quiz_schema (PyDict empty_questions_sample) =
    Raise (ValueError "questions must be a non-empty list").
Proof.
  apply empty_questions_rejected.
  - unfold has_required_top, required_top. repeat constructor.
  - reflexivity.
Defined.

(** C3, as amended.  Checks 3 and 4 are applied together, question by
    question: when the questions before a question are all well formed,
    the validator reports that question's 1-based position, with the
    text-and-options message if it is a mapping without [text] or
    without [options], and with the options message if it has both but
    its [options] is not a mapping holding A, B, C and D. *)
Theorem first_unfit_question_is_reported entries pre q post :
  has_required_top entries ->
  lookup "questions" entries = Some (PyList (pre ++ q :: post)) ->
  Forall well_formed_question pre ->
  (lacks_text_or_options q = true ->
   validate_quiz_schema (PyDict entries) =
     Raise (ValueError ("Question " ++ decimal (Z.of_nat (S (List.length pre)))
                          ++ " must have 'text' and 'options'"))) /\
  (has_unfit_options q = true ->
   validate_quiz_schema (PyDict entries) =
     Raise (ValueError ("Question " ++ decimal (Z.of_nat (S (List.length pre)))
                          ++ " options must include A, B, C, D"))).
Proof.
  intros Htop Hq Hpre.
  assert (Hv : validate_quiz_schema (PyDict entries) =
               (check_question (S (List.length pre)) q ;;;
                check_questions (S (S (List.length pre))) post ;;;
                solution_table <- py_getitem (PyDict entries) "solution_table" ;;
                if negb (isinstance_list solution_table)
                then Raise (ValueError "solution_table must be a list")
                else Ok true)).
  { destruct (pre ++ q :: post)%list as [|x l] eqn:Hl.
    - destruct pre; discriminate Hl.
    - rewrite (validate_reaches_loop _ _ _ Htop Hq), <- Hl.
      rewrite (check_questions_app 1 _ _ _ Hpre). cbn [Nat.add].
      destruct (check_question _ q); reflexivity. }
  split; intros Hbad; rewrite Hv; destruct q as [| | | | | |qe]; try discriminate Hbad;
    rewrite check_question_dict.
  - rewrite Hbad. reflexivity.
  - rewrite Hbad.
    destruct (lacks_text_or_options (PyDict qe)) eqn:Hl; [|reflexivity].
    unfold lacks_text_or_options in Hl. unfold has_unfit_options in Hbad.
    destruct (has_key "text" qe); [|discriminate Hbad].
    unfold has_key in Hl. destruct (lookup "options" qe); discriminate.
Qed.

Lemma first_unfit_question_is_reported_witness :
  validate_quiz_schema (PyDict second_question_incomplete) =
    Raise (ValueError "Question 2 must have 'text' and 'options'").
Proof.
  refine (proj1 (first_unfit_question_is_reported second_question_incomplete
            [ PyDict [ ("options", PyDict [ ("D", PyStr "d"); ("C", PyStr "c");
                                            ("B", PyStr "b"); ("A", PyStr "a") ]);
                       ("text", PyStr "first") ] ]
            (PyDict [ ("options", PyDict []) ])
            [ PyInt 0 ] _ _ _) _).
  - unfold has_required_top, required_top. repeat constructor.
  - reflexivity.
  - constructor; [|constructor].
    eexists _, _, _. repeat split; try reflexivity.
    unfold option_letters. repeat constructor.
  - reflexivity.
Defined.

(** C3, as stated, fails: with a first question whose [options] lacks
    the letters and a second question without [text], the first question
    lacking [text] or [options] is question 2, and the validator reports
    question 1 with the options message. *)
Lemma presence_check_does_not_run_first :
  ~ presence_check_runs_first questions_out_of_order.
Proof.
  intros H.
  assert (Htop : has_required_top
            [ ("title", PyStr "t"); ("subtitle", PyStr "s");
              ("questions", PyList
                 [ PyDict [ ("text", PyStr "first"); ("options", PyDict []) ];
                   PyDict [] ]);
              ("solution_table", PyList []) ]).
  { unfold has_required_top, required_top. repeat constructor. }
  specialize (H _ [ PyDict [ ("text", PyStr "first"); ("options", PyDict []) ];
                    PyDict [] ] 2%nat eq_refl Htop eq_refl eq_refl).
  vm_compute in H. discriminate H.
Qed.

(** What the validator does on that input. *)
Lemma questions_out_of_order_verdict :
  validate_quiz_schema questions_out_of_order =
    Raise (ValueError "Question 1 options must include A, B, C, D").
Proof. reflexivity. Qed.

(** C8.  A question that is a number ends the validator with a
    [TypeError] raised by the membership test, not with one of its own
    messages. *)
Theorem question_not_a_mapping_raises_type_error :
  validate_quiz_schema question_not_a_mapping = Raise TypeError.
Proof. reflexivity. Qed.

(** ** The assembler: lemmas *)

Lemma lookup_Permutation k (l l' : list (string * value)) :
  Permutation l l' -> NoDup (map fst l) -> lookup k l' = lookup k l.
Proof.
  induction 1 as [| [k1 v1] l l' HP IH | [k1 v1] [k2 v2] l | l l' l'' HP1 IH1 HP2 IH2];
    intros Hnd.
  - reflexivity.
  - cbn. inversion Hnd; subst. rewrite IH by assumption. reflexivity.
  - cbn. cbn in Hnd. inversion Hnd as [|? ? Hnotin _]; subst.
    destruct (String.eqb k k2) eqn:E2, (String.eqb k k1) eqn:E1; try reflexivity.
    apply String.eqb_eq in E1, E2. subst. exfalso. apply Hnotin. left. reflexivity.
  - rewrite IH2, IH1; [reflexivity | assumption |].
    apply (Permutation_NoDup (l := map fst l)); [|assumption].
    apply Permutation_map. assumption.
Qed.

Section AssemblerFacts.

Variable repr_str : string -> string.
Variable markup_error : string -> option string.

Lemma well_formed_question_group i q :
  well_formed_question q -> exists g, group_of repr_str i q g.
Proof.
  intros (entries & text & opts & -> & Ht & Ho & Hf).
  unfold option_letters in Hf.
  inversion Hf as [|? ? Ha Hf1]; subst. inversion Hf1 as [|? ? Hb Hf2]; subst.
  inversion Hf2 as [|? ? Hc Hf3]; subst. inversion Hf3 as [|? ? Hd _]; subst.
  apply has_key_lookup in Ha as [a Ha], Hb as [b Hb], Hc as [c Hc], Hd as [d Hd].
  eexists. eapply group_of_question; eauto.
Qed.

Lemma well_formed_questions_groups i qs :
  Forall well_formed_question qs -> exists gs, groups_of repr_str i qs gs.
Proof.
  intros H. revert i. induction H as [|q qs Hq _ IH]; intros i.
  - exists []. constructor.
  - destruct (well_formed_question_group i q Hq) as [g Hg].
    destruct (IH (S i)) as [gs Hgs].
    exists (g :: gs). constructor; assumption.
Qed.

Lemma groups_of_length i qs gs :
  groups_of repr_str i qs gs -> List.length gs = List.length qs.
Proof.
  induction 1; cbn; congruence.
Qed.

Lemma groups_of_counts i qs gs :
  groups_of repr_str i qs gs ->
  count is_body_paragraph (concat gs) = 5 * List.length qs /\
  count is_page_break (concat gs) = 0 /\
  count is_table (concat gs) = 0.
Proof.
  unfold count.
  induction 1 as [i | i q qs g gs Hg _ IH]; cbn [concat List.length].
  - cbn. auto.
  - destruct IH as (IH1 & IH2 & IH3). destruct Hg.
    rewrite !filter_app, !length_app, IH1, IH2, IH3. cbn. repeat split; lia.
Qed.

(** A row that is a mapping adds its three cells. *)
Lemma append_rows_mappings table_data rows :
  append_rows repr_str table_data (map PyDict rows) =
  Ok (table_data ++ map (row_cells repr_str) rows)%list.
Proof.
  revert table_data. induction rows as [|row rows IH]; intros table_data; cbn.
  - rewrite app_nil_r. reflexivity.
  - unfold append_row. cbn [py_get].
    assert (Hcell : forall k,
              (v <- match lookup k row with
                    | Some v => Ok v
                    | None => Ok (PyStr "")
                    end ;; Ok (py_str repr_str v)) = Ok (cell repr_str row k)).
    { intros k. unfold cell. destruct (lookup k row); reflexivity. }
    pose proof (Hcell "number") as Hn. pose proof (Hcell "answer") as Ha.
    pose proof (Hcell "explanation") as He.
    unfold row_cells, cell in *.
    destruct (lookup "number" row), (lookup "answer" row), (lookup "explanation" row);
      cbn [bind]; rewrite IH, <- app_assoc; reflexivity.
Qed.

(** The loop over the rows ends with the table data or with the
    [AttributeError] of a row that has no [get]. *)
Lemma append_rows_outcome table_data rows :
  (exists table_data', append_rows repr_str table_data rows = Ok table_data') \/
  append_rows repr_str table_data rows = Raise AttributeError.
Proof.
  revert table_data. induction rows as [|row rows IH]; intros table_data; cbn.
  - left. eexists. reflexivity.
  - destruct row as [| | | | | | entries]; try (right; reflexivity).
    unfold append_row. cbn [py_get].
    destruct (lookup "number" entries), (lookup "answer" entries),
      (lookup "explanation" entries); cbn [bind]; apply IH.
Qed.

(** A paragraph that is built is the paragraph of its text, and the text
    is a [str]. *)
Lemma new_Paragraph_ok text style p :
  new_Paragraph markup_error text style = Ok p ->
  p = Paragraph text style /\ exists s, text = PyStr s.
Proof.
  unfold new_Paragraph. destruct text as [| | | | s | |]; try discriminate.
  intros H. split; [|exists s; reflexivity].
  destruct (has_markup s); [destruct (markup_error s)|]; congruence.
Qed.

Lemma new_Paragraph_plain s style :
  has_markup s = false ->
  new_Paragraph markup_error (PyStr s) style = Ok (Paragraph (PyStr s) style).
Proof.
  intros H. unfold new_Paragraph. rewrite H. reflexivity.
Qed.

Lemma new_Paragraph_raises text style e :
  new_Paragraph markup_error text style = Raise e ->
  e = AttributeError \/ exists msg, e = ValueError msg.
Proof.
  unfold new_Paragraph. destruct text as [| | | | s | |];
    try (intros [= <-]; left; reflexivity).
  destruct (has_markup s); [|discriminate].
  destruct (markup_error s) as [msg|]; [|discriminate].
  intros [= <-]. right. exists msg. reflexivity.
Qed.

Lemma py_getitem_ok container k v :
  py_getitem container k = Ok v ->
  exists entries, container = PyDict entries /\ lookup k entries = Some v.
Proof.
  destruct container; try discriminate. cbn.
  destruct (lookup k entries) as [v'|] eqn:Hl; [|discriminate].
  intros [= <-]. exists entries. split; [reflexivity | exact Hl].
Qed.

(** The loop body builds the group of its question when ReportLab takes
    the five paragraphs. *)
Lemma append_question_group story i q g :
  group_of repr_str i q g ->
  Forall (accepted markup_error) g ->
  append_question repr_str markup_error story i q = Ok (story ++ g)%list.
Proof.
  intros [entries opts text a b c d -> Ht Ho Ha Hb Hc Hd] Hacc.
  unfold question_group in Hacc.
  inversion Hacc as [|? ? P0 Hacc1]; subst. inversion Hacc1 as [|? ? P1 Hacc2]; subst.
  inversion Hacc2 as [|? ? P2 Hacc3]; subst. inversion Hacc3 as [|? ? P3 Hacc4]; subst.
  inversion Hacc4 as [|? ? P4 _]; subst.
  unfold accepted in P0, P1, P2, P3, P4.
  cbn [String.append] in P0, P1, P2, P3, P4.
  unfold append_question. cbn [py_getitem String.append].
  rewrite Ht. cbn [bind]. rewrite P0. cbn [bind]. rewrite Ho. cbn [bind py_getitem].
  rewrite Ha. cbn [bind]. rewrite P1. cbn [bind].
  rewrite Hb. cbn [bind]. rewrite P2. cbn [bind].
  rewrite Hc. cbn [bind]. rewrite P3. cbn [bind].
  rewrite Hd. cbn [bind]. rewrite P4. cbn [bind].
  unfold question_group. repeat rewrite <- app_assoc. reflexivity.
Qed.

(** And a story the loop body gives is the old story and that group. *)
Lemma append_question_inv story i q story' :
  append_question repr_str markup_error story i q = Ok story' ->
  exists g,
    group_of repr_str i q g /\
    Forall (accepted markup_error) g /\
    story' = (story ++ g)%list.
Proof.
  unfold append_question. intros H.
  destruct (py_getitem q "text") as [text|] eqn:Ht; [|discriminate H]. cbn [bind] in H.
  destruct (new_Paragraph _ _ question_style) as [p0|] eqn:P0; [|discriminate H].
  cbn [bind] in H.
  destruct (py_getitem q "options") as [o|] eqn:Ho; [|discriminate H]. cbn [bind] in H.
  destruct (py_getitem o "A") as [a|] eqn:Ha; [|discriminate H]. cbn [bind] in H.
  destruct (new_Paragraph _ (PyStr ("A) " ++ _)) _) as [p1|] eqn:P1; [|discriminate H].
  cbn [bind] in H.
  destruct (py_getitem o "B") as [b|] eqn:Hb; [|discriminate H]. cbn [bind] in H.
  destruct (new_Paragraph _ (PyStr ("B) " ++ _)) _) as [p2|] eqn:P2; [|discriminate H].
  cbn [bind] in H.
  destruct (py_getitem o "C") as [c|] eqn:Hc; [|discriminate H]. cbn [bind] in H.
  destruct (new_Paragraph _ (PyStr ("C) " ++ _)) _) as [p3|] eqn:P3; [|discriminate H].
  cbn [bind] in H.
  destruct (py_getitem o "D") as [d|] eqn:Hd; [|discriminate H]. cbn [bind] in H.
  destruct (new_Paragraph _ (PyStr ("D) " ++ _)) _) as [p4|] eqn:P4; [|discriminate H].
  cbn [bind] in H. injection H as <-.
  destruct (py_getitem_ok _ _ _ Ht) as (entries & -> & Ht').
  destruct (py_getitem_ok _ _ _ Ho) as (entries' & [= <-] & Ho').
  destruct (py_getitem_ok _ _ _ Ha) as (opts & -> & Ha').
  cbn [py_getitem] in Hb, Hc, Hd.
  destruct (lookup "B" opts) as [b'|] eqn:Hb'; [|discriminate Hb]. injection Hb as ->.
  destruct (lookup "C" opts) as [c'|] eqn:Hc'; [|discriminate Hc]. injection Hc as ->.
  destruct (lookup "D" opts) as [d'|] eqn:Hd'; [|discriminate Hd]. injection Hd as ->.
  pose proof (proj1 (new_Paragraph_ok _ _ _ P0)) as E0.
  pose proof (proj1 (new_Paragraph_ok _ _ _ P1)) as E1.
  pose proof (proj1 (new_Paragraph_ok _ _ _ P2)) as E2.
  pose proof (proj1 (new_Paragraph_ok _ _ _ P3)) as E3.
  pose proof (proj1 (new_Paragraph_ok _ _ _ P4)) as E4.
  subst p0 p1 p2 p3 p4.
  exists (question_group repr_str i text a b c d). split; [|split].
  - eapply group_of_question; eauto.
  - unfold question_group. repeat constructor; assumption.
  - unfold question_group. repeat rewrite <- app_assoc. reflexivity.
Qed.

Lemma append_questions_groups story i qs gs :
  groups_of repr_str i qs gs ->
  Forall (accepted markup_error) (concat gs) ->
  append_questions repr_str markup_error story i qs = Ok (story ++ concat gs)%list.
Proof.
  intros H. revert story. induction H as [i | i q qs g gs Hg _ IH]; intros story Hacc; cbn.
  - rewrite app_nil_r. reflexivity.
  - cbn [concat] in Hacc. apply Forall_app in Hacc as [Hg' Hgs'].
    rewrite (append_question_group _ _ _ _ Hg Hg'). cbn [bind].
    rewrite (IH _ Hgs'), app_assoc. reflexivity.
Qed.

Lemma append_questions_inv story i qs story' :
  append_questions repr_str markup_error story i qs = Ok story' ->
  exists gs,
    groups_of repr_str i qs gs /\
    Forall (accepted markup_error) (concat gs) /\
    story' = (story ++ concat gs)%list.
Proof.
  revert story i. induction qs as [|q qs IH]; intros story i H; cbn [append_questions] in H.
  - injection H as <-. exists []. split; [constructor|].
    split; [constructor | cbn; rewrite app_nil_r; reflexivity].
  - destruct (append_question repr_str markup_error story i q) as [story0|] eqn:Hq;
      [|discriminate H].
    cbn [bind] in H.
    destruct (append_question_inv _ _ _ _ Hq) as (g & Hg & Hacc & ->).
    destruct (IH _ _ H) as (gs & Hgs & Haccs & ->).
    exists (g :: gs). split; [constructor; assumption|].
    split; [cbn [concat]; apply Forall_app; split; assumption|].
    cbn [concat]. rewrite app_assoc. reflexivity.
Qed.

(** A story that is built: what was read to build it, and its parts. *)
Lemma build_story_inv data story :
  build_story repr_str markup_error data = Ok story ->
  exists title subtitle qs gs rows table_data,
    py_getitem data "title" = Ok title /\
    py_getitem data "subtitle" = Ok subtitle /\
    (questions <- py_getitem data "questions" ;; py_iter questions) = Ok qs /\
    groups_of repr_str 1 qs gs /\
    (solution_table <- py_get data "solution_table" (PyList []) ;;
     py_iter solution_table) = Ok rows /\
    append_rows repr_str [table_header] rows = Ok table_data /\
    story = (front_matter title subtitle ++ concat gs ++ back_matter table_data)%list /\
    Forall (accepted markup_error) story.
Proof.
  unfold build_story. intros H.
  destruct (py_getitem data "title") as [title|] eqn:Ht; [|discriminate H].
  cbn [bind] in H.
  destruct (new_Paragraph markup_error title title_style) as [p1|] eqn:P1; [|discriminate H].
  cbn [bind] in H.
  destruct (py_getitem data "subtitle") as [subtitle|] eqn:Hs; [|discriminate H].
  cbn [bind] in H.
  destruct (new_Paragraph markup_error subtitle subtitle_style) as [p2|] eqn:P2;
    [|discriminate H].
  cbn [bind] in H.
  rewrite (new_Paragraph_plain "Questions") in H by reflexivity. cbn [bind] in H.
  destruct (py_getitem data "questions") as [questions|] eqn:Hq; [|discriminate H].
  cbn [bind] in H.
  destruct (py_iter questions) as [qs|] eqn:Hi; [|discriminate H].
  cbn [bind] in H.
  destruct (append_questions _ _ _ _ qs) as [story0|] eqn:Hl; [|discriminate H].
  cbn [bind] in H.
  rewrite (new_Paragraph_plain "Solution Table") in H by reflexivity. cbn [bind] in H.
  destruct (py_get data "solution_table" (PyList [])) as [st|] eqn:Hst; [|discriminate H].
  cbn [bind] in H.
  destruct (py_iter st) as [rows|] eqn:Hr; [|discriminate H].
  cbn [bind] in H.
  destruct (append_rows repr_str [table_header] rows) as [td|] eqn:Htd; [|discriminate H].
  cbn [bind] in H. injection H as <-.
  destruct (append_questions_inv _ _ _ _ Hl) as (gs & Hgs & Hacc & ->).
  pose proof (proj1 (new_Paragraph_ok _ _ _ P1)) as E1.
  pose proof (proj1 (new_Paragraph_ok _ _ _ P2)) as E2. subst p1 p2.
  exists title, subtitle, qs, gs, rows, td.
  split; [reflexivity|]. split; [reflexivity|].
  split; [cbn [bind]; exact Hi|]. split; [exact Hgs|].
  split; [cbn [bind]; exact Hr|]. split; [exact Htd|].
  unfold front_matter, back_matter. repeat rewrite <- app_assoc. cbn [app].
  split; [reflexivity|].
  repeat (constructor; [first [exact P1 | exact P2 | exact I | reflexivity]|]).
  apply Forall_app; split; [exact Hacc|].
  repeat (constructor; [first [exact I | reflexivity]|]). constructor.
Qed.

(** The converse: what is enough for the story to be built. *)
Lemma build_story_intro data title subtitle qs gs rows table_data :
  py_getitem data "title" = Ok title ->
  py_getitem data "subtitle" = Ok subtitle ->
  (questions <- py_getitem data "questions" ;; py_iter questions) = Ok qs ->
  groups_of repr_str 1 qs gs ->
  Forall (accepted markup_error) (front_matter title subtitle ++ concat gs) ->
  (solution_table <- py_get data "solution_table" (PyList []) ;;
   py_iter solution_table) = Ok rows ->
  append_rows repr_str [table_header] rows = Ok table_data ->
  build_story repr_str markup_error data =
    Ok (front_matter title subtitle ++ concat gs ++ back_matter table_data)%list.
Proof.
  intros Ht Hs Hq Hgs Hacc Hr Htd.
  apply Forall_app in Hacc as [Hfront Hacc].
  unfold front_matter in Hfront.
  inversion Hfront as [|? ? _ Hf1]; subst. inversion Hf1 as [|? ? P1 Hf2]; subst.
  inversion Hf2 as [|? ? P2 _]; subst. unfold accepted in P1, P2.
  unfold build_story. rewrite Ht. cbn [bind]. rewrite P1. cbn [bind].
  rewrite Hs. cbn [bind]. rewrite P2. cbn [bind].
  rewrite (new_Paragraph_plain "Questions") by reflexivity. cbn [bind].
  destruct (py_getitem data "questions") as [questions|]; [|discriminate Hq].
  cbn [bind] in Hq |- *. rewrite Hq. cbn [bind].
  rewrite (append_questions_groups _ _ _ _ Hgs Hacc). cbn [bind].
  rewrite (new_Paragraph_plain "Solution Table") by reflexivity. cbn [bind].
  destruct (py_get data "solution_table" (PyList [])) as [st|]; [|discriminate Hr].
  cbn [bind] in Hr |- *. rewrite Hr. cbn [bind]. rewrite Htd. cbn [bind].
  unfold front_matter, back_matter. repeat rewrite <- app_assoc. reflexivity.
Qed.

Lemma append_question_option_order story i q q' :
  same_up_to_option_order q q' ->
  append_question repr_str markup_error story i q' = append_question repr_str markup_error story i q.
Proof.
  intros (entries & entries' & opts & opts' & -> & -> & Ht & Ho & Ho' & Hnd & HP).
  unfold append_question. cbn [py_getitem].
  rewrite Ht, Ho, Ho'. destruct (lookup "text" entries); [|reflexivity].
  cbn [bind py_getitem]. rewrite !(lookup_Permutation _ _ _ HP Hnd). reflexivity.
Qed.

Lemma append_questions_option_order story i qs qs' :
  Forall2 same_up_to_option_order qs qs' ->
  append_questions repr_str markup_error story i qs' = append_questions repr_str markup_error story i qs.
Proof.
  intros H. revert story i. induction H as [|q q' qs qs' Hq _ IH]; intros story i; cbn.
  - reflexivity.
  - rewrite (append_question_option_order _ _ _ _ Hq).
    destruct (append_question repr_str markup_error story i q); cbn [bind]; [apply IH | reflexivity].
Qed.

Lemma build_story_option_order data data' :
  same_quiz_up_to_option_order data data' ->
  build_story repr_str markup_error data' = build_story repr_str markup_error data.
Proof.
  intros (entries & entries' & qs & qs' & -> & -> & Ht & Hsub & Hs & Hq & Hq' & Hqs).
  unfold build_story. cbn [py_getitem py_get].
  rewrite Ht, Hsub, Hs, Hq, Hq'.
  destruct (lookup "title" entries) as [title|]; [|reflexivity]. cbn [bind].
  destruct (new_Paragraph markup_error title title_style); [|reflexivity]. cbn [bind].
  destruct (lookup "subtitle" entries) as [subtitle|]; [|reflexivity]. cbn [bind].
  destruct (new_Paragraph markup_error subtitle subtitle_style); [|reflexivity].
  cbn [bind].
  destruct (new_Paragraph markup_error (PyStr "Questions") h2); [|reflexivity].
  cbn [bind py_iter].
  rewrite (append_questions_option_order _ _ _ _ Hqs). reflexivity.
Qed.

(** On well-formed questions the loop can only fail in a paragraph. *)
Lemma append_questions_wf_raises story i qs e :
  Forall well_formed_question qs ->
  append_questions repr_str markup_error story i qs = Raise e ->
  exists msg, e = ValueError msg.
Proof.
  intros Hwf. revert story i. induction Hwf as [|q qs Hq _ IH]; intros story i H;
    cbn [append_questions] in H; [discriminate H|].
  destruct (append_question repr_str markup_error story i q) as [story'|e'] eqn:Ha;
    cbn [bind] in H; [exact (IH _ _ H)|].
  injection H as ->. clear IH.
  destruct (well_formed_question_group i q Hq) as [g Hg].
  destruct Hg as [entries opts text a b c d -> Ht Ho Hoa Hob Hoc Hod].
  unfold append_question in Ha. cbn [py_getitem] in Ha.
  assert (Hp : forall s style (r : flowable -> result (list flowable)),
            (p <- new_Paragraph markup_error (PyStr s) style ;; r p) = Raise e ->
            (exists msg, e = ValueError msg) \/
            r (Paragraph (PyStr s) style) = Raise e).
  { intros s style r Hr.
    destruct (new_Paragraph markup_error (PyStr s) style) as [p|e0] eqn:Hn; cbn [bind] in Hr.
    - right. rewrite (proj1 (new_Paragraph_ok _ _ _ Hn)) in Hr. exact Hr.
    - injection Hr as ->. left.
      destruct (new_Paragraph_raises _ _ _ Hn) as [He | Hm]; [|exact Hm].
      subst e. unfold new_Paragraph in Hn.
      destruct (has_markup s); [destruct (markup_error s)|]; discriminate Hn. }
  rewrite Ht in Ha. cbn [bind] in Ha.
  apply Hp in Ha as [Hm | Ha]; [exact Hm|].
  rewrite Ho in Ha. cbn [bind py_getitem] in Ha. rewrite Hoa in Ha. cbn [bind] in Ha.
  apply Hp in Ha as [Hm | Ha]; [exact Hm|].
  rewrite Hob in Ha. cbn [bind] in Ha.
  apply Hp in Ha as [Hm | Ha]; [exact Hm|].
  rewrite Hoc in Ha. cbn [bind] in Ha.
  apply Hp in Ha as [Hm | Ha]; [exact Hm|].
  rewrite Hod in Ha. cbn [bind] in Ha.
  apply Hp in Ha as [Hm | Ha]; [exact Hm|].
  discriminate Ha.
Qed.

(** The story construction on an accepted value: it reads what it needs
    and then stands or falls with the paragraphs and the rows. *)
Lemma build_story_validated data b :
  validate_quiz_schema data = Ok b ->
  exists entries title subtitle qs rows,
    data = PyDict entries /\
    lookup "title" entries = Some title /\
    lookup "subtitle" entries = Some subtitle /\
    lookup "questions" entries = Some (PyList qs) /\
    lookup "solution_table" entries = Some (PyList rows) /\
    Forall well_formed_question qs /\
    ((exists story, build_story repr_str markup_error data = Ok story) \/
     build_story repr_str markup_error data = Raise AttributeError \/
     exists msg, build_story repr_str markup_error data = Raise (ValueError msg)).
Proof.
  intros H.
  destruct (validate_ok_inv _ _ H) as (entries & q & qs & rows & -> & Htop & Hq & Hwf & Hs & _).
  unfold has_required_top, required_top in Htop.
  inversion Htop as [|? ? Ht H1]; subst. inversion H1 as [|? ? Hsub _]; subst.
  apply has_key_lookup in Ht as [title Ht], Hsub as [subtitle Hsub].
  exists entries, title, subtitle, (q :: qs), rows.
  split; [reflexivity|]. repeat (split; [assumption|]).
  unfold build_story. cbn [py_getitem py_get]. rewrite Ht, Hsub, Hq, Hs. cbn [bind].
  destruct (new_Paragraph markup_error title title_style) as [p1|e] eqn:P1; cbn [bind].
  2:{ destruct (new_Paragraph_raises _ _ _ P1) as [-> | [m ->]];
        [right; left; reflexivity | right; right; exists m; reflexivity]. }
  destruct (new_Paragraph markup_error subtitle subtitle_style) as [p2|e] eqn:P2; cbn [bind].
  2:{ destruct (new_Paragraph_raises _ _ _ P2) as [-> | [m ->]];
        [right; left; reflexivity | right; right; exists m; reflexivity]. }
  rewrite (new_Paragraph_plain "Questions") by reflexivity. cbn [bind py_iter].
  destruct (append_questions _ _ _ _ (q :: qs)) as [story0|e] eqn:Hl; cbn [bind].
  2:{ destruct (append_questions_wf_raises _ _ _ _ Hwf Hl) as [m ->].
      right; right; exists m; reflexivity. }
  rewrite (new_Paragraph_plain "Solution Table") by reflexivity. cbn [bind].
  destruct (append_rows_outcome [table_header] rows) as [[td ->] | ->]; cbn [bind].
  - left. eexists. reflexivity.
  - right; left. reflexivity.
Qed.

(** Rows that are all mappings. *)
Lemma rows_are_mappings rows :
  Forall (fun row => isinstance_dict row = true) rows ->
  exists rs, rows = map PyDict rs.
Proof.
  induction 1 as [|row rows Hrow _ [rs ->]]; [exists []; reflexivity|].
  destruct row as [| | | | | | entries]; try discriminate Hrow.
  exists (entries :: rs). reflexivity.
Qed.

Lemma append_rows_ok_mappings table_data rows table_data' :
  append_rows repr_str table_data rows = Ok table_data' ->
  Forall (fun row => isinstance_dict row = true) rows.
Proof.
  revert table_data. induction rows as [|row rows IH]; intros table_data H; [constructor|].
  cbn [append_rows] in H.
  destruct (append_row repr_str table_data row) as [td|] eqn:Hrow; [|discriminate H].
  cbn [bind] in H. constructor; [|exact (IH _ H)].
  destruct row; try discriminate Hrow. reflexivity.
Qed.

(** What is enough for the story to be built, on any value. *)
Lemma build_story_completes data title subtitle qs gs rows :
  py_getitem data "title" = Ok title ->
  py_getitem data "subtitle" = Ok subtitle ->
  py_getitem data "questions" = Ok (PyList qs) ->
  groups_of repr_str 1 qs gs ->
  Forall (accepted markup_error) (front_matter title subtitle ++ concat gs) ->
  py_getitem data "solution_table" = Ok (PyList rows) ->
  Forall (fun row => isinstance_dict row = true) rows ->
  exists rs,
    rows = map PyDict rs /\
    build_story repr_str markup_error data =
      Ok (front_matter title subtitle ++ concat gs ++
          back_matter (table_header :: map (row_cells repr_str) rs))%list.
Proof.
  intros Ht Hs Hq Hgs Hacc Hst Hrows.
  destruct (rows_are_mappings _ Hrows) as [rs ->]. exists rs. split; [reflexivity|].
  apply (build_story_intro data title subtitle qs gs (map PyDict rs)); try assumption.
  - rewrite Hq. reflexivity.
  - destruct (py_getitem_ok _ _ _ Hst) as (entries & -> & Hl).
    cbn [py_get]. rewrite Hl. reflexivity.
  - rewrite append_rows_mappings. reflexivity.
Qed.

(** ** The assembler: theorems *)

(** C1.  On a value the validator accepts, the assembler's reads by key
    all succeed: [questions] and [solution_table] are there to iterate,
    every question yields its [text], its [options] and the options
    [A], [B], [C], [D], and the story construction never ends with a
    [KeyError]. *)
Theorem validated_story_raises_no_key_error data b :
  validate_quiz_schema data = Ok b ->
  (exists qs rows,
     (questions <- py_getitem data "questions" ;; py_iter questions) = Ok qs /\
     (solution_table <- py_get data "solution_table" (PyList []) ;;
      py_iter solution_table) = Ok rows /\
     Forall (fun q => exists text opts a b c d,
                 py_getitem q "text" = Ok text /\
                 py_getitem q "options" = Ok opts /\
                 py_getitem opts "A" = Ok a /\
                 py_getitem opts "B" = Ok b /\
                 py_getitem opts "C" = Ok c /\
                 py_getitem opts "D" = Ok d) qs) /\
  forall k, build_story repr_str markup_error data <> Raise (KeyError k).
Proof.
  intros H.
  destruct (build_story_validated _ _ H)
    as (entries & title & subtitle & qs & rows & -> & Ht & Hsub & Hq & Hs & Hwf & Hb).
  split.
  - exists qs, rows. cbn [py_getitem py_get]. rewrite Hq, Hs. cbn [bind py_iter].
    repeat split.
    apply Forall_forall. intros q Hin.
    rewrite Forall_forall in Hwf.
    destruct (well_formed_question_group 0 q (Hwf q Hin)) as [g Hg].
    destruct Hg as [qe opts text a b' c d -> Hqt Hqo Ha Hb' Hc Hd].
    exists text, (PyDict opts), a, b', c, d. cbn [py_getitem].
    rewrite Hqt, Hqo, Ha, Hb', Hc, Hd. repeat split.
  - intros k. destruct Hb as [[story ->] | [-> | [msg ->]]]; discriminate.
Qed.

(** C2, as amended.  On an accepted quiz, a story that is built is the
    front matter, then one group per question, then the back matter;
    the group of the question at 1-based position [i] is the stem
    numbered [i], the options A, B, C, D in that order and the small
    spacer, so the story holds five question paragraphs per question.
    The story is built when the title and the subtitle are texts,
    ReportLab takes every paragraph, and every solution row is a
    mapping.  A quiz that differs only in the order of the entries of
    its questions' options gives the same story. *)
Theorem question_groups_in_letter_order data qs :
  validate_quiz_schema data = Ok true ->
  py_getitem data "questions" = Ok (PyList qs) ->
  (forall story,
     build_story repr_str markup_error data = Ok story ->
     exists title subtitle gs table_data,
       groups_of repr_str 1 qs gs /\
       List.length gs = List.length qs /\
       story = (front_matter title subtitle ++ concat gs ++ back_matter table_data)%list /\
       count is_body_paragraph story = 5 * List.length qs) /\
  (forall title subtitle gs rows,
     py_getitem data "title" = Ok title ->
     py_getitem data "subtitle" = Ok subtitle ->
     groups_of repr_str 1 qs gs ->
     Forall (accepted markup_error) (front_matter title subtitle ++ concat gs) ->
     py_getitem data "solution_table" = Ok (PyList rows) ->
     Forall (fun row => isinstance_dict row = true) rows ->
     exists story, build_story repr_str markup_error data = Ok story) /\
  (forall data', same_quiz_up_to_option_order data data' ->
                 build_story repr_str markup_error data' =
                 build_story repr_str markup_error data).
Proof.
  intros H Hqs. split; [|split; [|apply build_story_option_order]].
  - intros story Hb.
    destruct (build_story_inv _ _ Hb)
      as (title & subtitle & qs0 & gs & rows & td & _ & _ & Hq & Hgs & _ & _ & -> & _).
    rewrite Hqs in Hq. cbn [bind py_iter] in Hq. injection Hq as <-.
    exists title, subtitle, gs, td.
    split; [exact Hgs|]. split; [apply (groups_of_length _ _ _ Hgs)|].
    split; [reflexivity|].
    destruct (groups_of_counts _ _ _ Hgs) as (Hc & _ & _).
    unfold count in *. rewrite !filter_app, !length_app, Hc. cbn. lia.
  - intros title subtitle gs rows Ht Hs Hgs Hacc Hst Hrows.
    destruct (build_story_completes _ _ _ _ _ _ Ht Hs Hqs Hgs Hacc Hst Hrows)
      as (rs & _ & Hb).
    eexists. exact Hb.
Qed.

(** C6, as amended.  On an accepted quiz, a story that is built ends
    with its only table: the header row, then one row per entry of the
    solution table, in order, holding the display text of the entry's
    number, answer and explanation, the empty text standing for a field
    the entry does not have; the entries are then all mappings, and with
    no entries the table is the header row alone.  The story is built
    when the title and the subtitle are texts, ReportLab takes every
    paragraph, and every entry is a mapping. *)
Theorem solution_table_rows data rows :
  validate_quiz_schema data = Ok true ->
  py_getitem data "solution_table" = Ok (PyList rows) ->
  (forall story,
     build_story repr_str markup_error data = Ok story ->
     exists front rs,
       rows = map PyDict rs /\
       story = (front ++ [Table (table_header :: map (row_cells repr_str) rs)
                                table_colWidths table_style])%list /\
       count is_table front = 0 /\
       (rows = [] ->
        story = (front ++ [Table [table_header] table_colWidths table_style])%list)) /\
  (forall title subtitle qs gs,
     py_getitem data "title" = Ok title ->
     py_getitem data "subtitle" = Ok subtitle ->
     py_getitem data "questions" = Ok (PyList qs) ->
     groups_of repr_str 1 qs gs ->
     Forall (accepted markup_error) (front_matter title subtitle ++ concat gs) ->
     Forall (fun row => isinstance_dict row = true) rows ->
     exists story, build_story repr_str markup_error data = Ok story).
Proof.
  intros H Hrows. split.
  - intros story Hb.
    destruct (build_story_inv _ _ Hb)
      as (title & subtitle & qs & gs & rows0 & td & _ & _ & _ & Hgs & Hr & Htd & -> & _).
    destruct (py_getitem_ok _ _ _ Hrows) as (entries & -> & Hl).
    cbn [py_get] in Hr. rewrite Hl in Hr. cbn [bind py_iter] in Hr. injection Hr as <-.
    destruct (rows_are_mappings _ (append_rows_ok_mappings _ _ _ Htd)) as [rs ->].
    rewrite append_rows_mappings in Htd. injection Htd as <-.
    exists (front_matter title subtitle ++ concat gs ++
            [PageBreak; Paragraph (PyStr "Solution Table") h2])%list, rs.
    split; [reflexivity|].
    assert (Hstory :
      (front_matter title subtitle ++ concat gs ++
       back_matter ([table_header] ++ map (row_cells repr_str) rs))%list =
      ((front_matter title subtitle ++ concat gs ++
        [PageBreak; Paragraph (PyStr "Solution Table") h2]) ++
       [Table (table_header :: map (row_cells repr_str) rs)
              table_colWidths table_style])%list).
    { unfold back_matter. repeat rewrite <- app_assoc. reflexivity. }
    split; [exact Hstory|]. split.
    + destruct (groups_of_counts _ _ _ Hgs) as (_ & _ & Hc).
      unfold count in *. rewrite !filter_app, !length_app, Hc. reflexivity.
    + intros Hnil. destruct rs; [exact Hstory | discriminate Hnil].
  - intros title subtitle qs gs Ht Hs Hq Hgs Hacc Hdict.
    destruct (build_story_completes _ _ _ _ _ _ Ht Hs Hq Hgs Hacc Hrows Hdict)
      as (rs & _ & Hb).
    eexists. exact Hb.
Qed.

(** C7.  The sample, five questions and five solution rows, is accepted
    as it is, and its story holds two page breaks and twenty-five
    question paragraphs. *)
Theorem sample_template_round_trip :
  validate_quiz_schema SAMPLE_TEMPLATE = Ok true /\
  (exists qs rows,
     py_getitem SAMPLE_TEMPLATE "questions" = Ok (PyList qs) /\
     py_getitem SAMPLE_TEMPLATE "solution_table" = Ok (PyList rows) /\
     List.length qs = 5 /\ List.length rows = 5) /\
  exists story,
    build_story repr_str markup_error SAMPLE_TEMPLATE = Ok story /\
    count is_page_break story = 2 /\
    count is_body_paragraph story = 25.
Proof.
  split; [reflexivity|]. split.
  - eexists _, _. repeat split; reflexivity.
  - eexists. split; [reflexivity|]. split; reflexivity.
Qed.

(** C10.  There is a value the validator accepts, with a solution table
    that holds an entry that is not a mapping, on which the story
    construction ends with an [AttributeError] instead of a story. *)
Theorem validation_does_not_guarantee_assembly :
  exists data rows row,
    validate_quiz_schema data = Ok true /\
    py_getitem data "solution_table" = Ok (PyList rows) /\
    In row rows /\
    isinstance_dict row = false /\
    build_story repr_str markup_error data = Raise AttributeError /\
    forall doc_path, build_pdf repr_str markup_error doc_path data = Raise AttributeError.
Proof.
  exists row_not_a_mapping, [PyInt 5], (PyInt 5).
  repeat split; try reflexivity. left. reflexivity.
Qed.

End AssemblerFacts.

Lemma validated_story_raises_no_key_error_witness :
  exists qs rows,
    (questions <- py_getitem small_quiz "questions" ;; py_iter questions) = Ok qs /\
    (solution_table <- py_get small_quiz "solution_table" (PyList []) ;;
     py_iter solution_table) = Ok rows.
Proof.
  destruct (validated_story_raises_no_key_error plain_repr accept_markup small_quiz true
              eq_refl) as [(qs & rows & Hq & Hr & _) _].
  exists qs, rows. split; [exact Hq | exact Hr].
Defined.

Lemma question_groups_in_letter_order_witness :
  exists story,
    build_story plain_repr reject_markup small_quiz = Ok story /\
    count is_body_paragraph story = 5.
Proof.
  destruct (question_groups_in_letter_order plain_repr reject_markup small_quiz
              small_questions eq_refl eq_refl) as (Hshape & _ & _).
  destruct (build_story plain_repr reject_markup small_quiz) as [story|e] eqn:Hb;
    [|vm_compute in Hb; discriminate Hb].
  exists story. split; [reflexivity|].
  destruct (Hshape story eq_refl) as (title & subtitle & gs & td & _ & _ & _ & Hc).
  exact Hc.
Defined.

(** C2, as stated, fails: a quiz whose title is a number is accepted,
    and ReportLab, which takes only texts, builds no paragraph from the
    number, so there is no story to hold the groups; this with a parser
    that takes every markup. *)
Lemma number_for_title_has_no_story :
  ~ builds_question_groups plain_repr accept_markup title_is_a_number.
Proof.
  intros H. destruct (H eq_refl) as (qs & gs & front & back & _ & _ & Hb).
  vm_compute in Hb. discriminate Hb.
Qed.

Lemma solution_table_rows_witness :
  exists story front,
    build_story plain_repr reject_markup small_quiz = Ok story /\
    story = (front ++ [Table [table_header; ["1"; "B"; ""]; [""; ""; ""]]
                             table_colWidths table_style])%list /\
    count is_table front = 0.
Proof.
  destruct (solution_table_rows plain_repr reject_markup small_quiz (map PyDict small_rows)
              eq_refl eq_refl) as (Hshape & _).
  destruct (build_story plain_repr reject_markup small_quiz) as [story|e] eqn:Hb;
    [|vm_compute in Hb; discriminate Hb].
  destruct (Hshape story eq_refl) as (front & rs & Hrs & Hstory & Hc & _).
  exists story, front. split; [reflexivity|]. split; [|exact Hc].
  assert (rs = small_rows) as ->.
  { clear -Hrs. unfold small_rows in *. cbn in Hrs.
    destruct rs as [|r1 [|r2 [|r3 rs]]]; try discriminate Hrs.
    injection Hrs as <- <-. reflexivity. }
  exact Hstory.
Defined.

(** C6, as stated, fails: a quiz whose solution table holds a number is
    accepted, and its story is never built, so there is no table. *)
Lemma number_for_row_has_no_table :
  ~ builds_solution_table plain_repr accept_markup row_not_a_mapping.
Proof.
  intros H. destruct (H eq_refl) as (front & td & Hb).
  vm_compute in Hb. discriminate Hb.
Qed.

(** ** The story construction over the store: lemmas *)

Section StoreFacts.

Variable repr_str : string -> string.
Variable markup_error : string -> option string.

Ltac store_simpl :=
  cbv beta iota delta [bindM bind lift story_new story_append append_paragraph
                       read_data read_story fst snd st_quiz st_story].

Ltac store_step :=
  store_simpl;
  match goal with
  | |- context [py_getitem ?c ?k] => destruct (py_getitem c k)
  | |- context [new_Paragraph ?m ?t ?s] => destruct (new_Paragraph m t s)
  end.

Lemma append_question_st_follows idx q :
  follows (append_question_st repr_str markup_error idx q)
          (fun story => append_question repr_str markup_error story idx q).
Proof.
  intros [quiz story]. unfold append_question_st, append_question.
  repeat store_step; store_simpl; auto.
Qed.

Lemma append_questions_st_follows idx qs :
  follows (append_questions_st repr_str markup_error idx qs)
          (fun story => append_questions repr_str markup_error story idx qs).
Proof.
  revert idx. induction qs as [|q qs IH]; intros idx [quiz story];
    cbn [append_questions_st append_questions st_story st_quiz].
  - reflexivity.
  - pose proof (append_question_st_follows idx q (Store quiz story)) as Hq.
    cbn [st_story st_quiz] in Hq. unfold bindM.
    destruct (append_question repr_str markup_error story idx q) as [story'|e];
      cbn [bind].
    + rewrite Hq. apply (IH (S idx) (Store quiz story')).
    + destruct (append_question_st repr_str markup_error idx q (Store quiz story))
        as [[u|e'] s']; cbn [fst snd] in Hq |- *; destruct Hq as [Hq1 Hq2];
        [discriminate Hq1|]. split; [exact Hq1 | exact Hq2].
Qed.

(** The construction over the store gives what [build_story] gives for
    the quiz in the store, whatever list [story] referred to before, and
    leaves the quiz as it found it. *)
Lemma build_story_st_spec s :
  fst (build_story_st repr_str markup_error s) =
    build_story repr_str markup_error (st_quiz s) /\
  st_quiz (snd (build_story_st repr_str markup_error s)) = st_quiz s.
Proof.
  destruct s as [quiz story]. unfold build_story_st, build_story.
  store_simpl.
  destruct (py_getitem quiz "title") as [title|]; store_simpl; [|auto].
  destruct (new_Paragraph markup_error title title_style) as [p1|];
    store_simpl; [|auto].
  destruct (py_getitem quiz "subtitle") as [subtitle|]; store_simpl; [|auto].
  destruct (new_Paragraph markup_error subtitle subtitle_style) as [p2|];
    store_simpl; [|auto].
  destruct (new_Paragraph markup_error (PyStr "Questions") h2) as [p3|];
    store_simpl; [|auto].
  destruct (py_getitem quiz "questions") as [questions|]; store_simpl; [|auto].
  destruct (py_iter questions) as [qs|]; store_simpl; [|auto].
  match goal with
  | |- context [append_questions_st _ _ 1 qs ?s0] =>
      pose proof (append_questions_st_follows 1 qs s0) as Hl;
      cbn [st_story st_quiz] in Hl;
      destruct (append_questions_st repr_str markup_error 1 qs s0) as [[u|e'] s1]
  end.
  - destruct (append_questions repr_str markup_error _ 1 qs) as [story1|];
      [|destruct Hl as [Hl _]; discriminate Hl].
    injection Hl as _ ->.
    store_simpl.
    destruct (new_Paragraph markup_error (PyStr "Solution Table") h2) as [p4|];
      store_simpl; [|auto].
    destruct (py_get quiz "solution_table" (PyList [])) as [st|];
      store_simpl; [|auto].
    destruct (py_iter st) as [rows|]; store_simpl; [|auto].
    destruct (append_rows repr_str [table_header] rows) as [td|];
      store_simpl; auto.
  - destruct (append_questions repr_str markup_error _ 1 qs) as [story1|];
      [discriminate Hl|].
    cbn [fst snd] in Hl. destruct Hl as [Hl1 Hl2]. injection Hl1 as ->.
    store_simpl. split; [reflexivity | exact Hl2].
Qed.


End StoreFacts.

(** ** More on the validator *)

Lemma check_required_raises data keys e :
  check_required data keys = Raise e ->
  e = TypeError \/
  exists k, In k keys /\ py_contains k data = Ok false /\
            e = ValueError ("Missing top-level key: " ++ k).
Proof.
  induction keys as [|k rest IH]; cbn [check_required]; [discriminate|].
  destruct (py_contains k data) as [[|]|e'] eqn:Hk; cbn [bind negb]; intros H.
  - destruct (IH H) as [-> | (k' & Hin & Hk' & ->)]; [left; reflexivity|].
    right. exists k'. split; [right; exact Hin|]. split; [exact Hk' | reflexivity].
  - injection H as <-. right. exists k.
    split; [left; reflexivity|]. split; [exact Hk | reflexivity].
  - injection H as <-. left.
    destruct data; try discriminate Hk; cbn in Hk; congruence.
Qed.

Lemma check_question_outcome i q :
  check_question i q = Ok tt \/
  check_question i q = Raise (ValueError (msg_text_options i)) \/
  check_question i q = Raise (ValueError (msg_options_letters i)) \/
  check_question i q = Raise TypeError.
Proof.
  destruct q as [| b | n | r | s | items | entries].
  1-4: right; right; right; reflexivity.
  - unfold check_question. cbn [py_contains bind].
    destruct (is_substring "text" s); cbn [negb bind]; [|right; left; reflexivity].
    destruct (is_substring "options" s); cbn [negb bind py_getitem];
      [right; right; right | right; left]; reflexivity.
  - unfold check_question. cbn [py_contains bind].
    destruct (existsb _ items); cbn [negb bind]; [|right; left; reflexivity].
    destruct (existsb _ items); cbn [negb bind py_getitem];
      [right; right; right | right; left]; reflexivity.
  - rewrite check_question_dict.
    destruct (lacks_text_or_options _); [right; left; reflexivity|].
    destruct (has_unfit_options _); [right; right; left; reflexivity | left; reflexivity].
Qed.

(** A loop that raises stopped at the first question that is not well
    formed. *)
Lemma check_questions_raises i qs e :
  check_questions i qs = Raise e ->
  exists pre q post,
    qs = (pre ++ q :: post)%list /\
    Forall well_formed_question pre /\
    ~ well_formed_question q /\
    check_question (i + List.length pre) q = Raise e.
Proof.
  revert i. induction qs as [|q rest IH]; intros i; cbn [check_questions];
    [discriminate|].
  destruct (check_question i q) as [[]|e'] eqn:Hq; cbn [bind]; intros H.
  - destruct (IH _ H) as (pre & q' & post & -> & Hpre & Hnot & Hq').
    exists (q :: pre), q', post. repeat split.
    + constructor; [apply (check_question_ok i); exact Hq | exact Hpre].
    + exact Hnot.
    + cbn [List.length]. rewrite Nat.add_succ_r. exact Hq'.
  - injection H as <-. exists [], q, rest. repeat split.
    + constructor.
    + intros Hwf. apply (check_question_ok i) in Hwf. congruence.
    + cbn [List.length]. rewrite Nat.add_0_r. exact Hq.
Qed.

(** X1.  The validator returns [True] exactly on a mapping that has a
    title and a subtitle, a non-empty list of well-formed questions and
    a list for solution table. *)
Theorem validate_accepts_iff data :
  validate_quiz_schema data = Ok true <->
  exists entries q qs rows,
    data = PyDict entries /\
    has_key "title" entries = true /\
    has_key "subtitle" entries = true /\
    lookup "questions" entries = Some (PyList (q :: qs)) /\
    Forall well_formed_question (q :: qs) /\
    lookup "solution_table" entries = Some (PyList rows).
Proof.
  split.
  - intros H.
    destruct (validate_ok_inv _ _ H) as (entries & q & qs & rows & -> & Htop & Hq & Hwf & Hs & _).
    unfold has_required_top, required_top in Htop.
    inversion Htop as [|? ? Ht H1]; subst. inversion H1 as [|? ? Hsub _]; subst.
    exists entries, q, qs, rows. repeat split; assumption.
  - intros (entries & q & qs & rows & -> & Ht & Hsub & Hq & Hwf & Hs).
    apply (validate_ok_intro entries q qs rows); try assumption.
    unfold has_required_top, required_top.
    repeat constructor; try assumption; apply has_key_lookup; eauto.
Qed.

(** X2.  Whatever the value, the validator ends in one of three ways:
    it returns [True], it raises a [ValueError], or it raises a
    [TypeError]; it never returns anything else and never raises a
    [KeyError] or an [AttributeError]. *)
Theorem validate_outcomes data :
  validate_quiz_schema data = Ok true \/
  (exists msg, validate_quiz_schema data = Raise (ValueError msg)) \/
  validate_quiz_schema data = Raise TypeError.
Proof.
  unfold validate_quiz_schema.
  destruct (check_required data required_top) as [[]|e] eqn:Hc; cbn [bind].
  2:{ destruct (check_required_raises _ _ _ Hc) as [-> | (k & _ & _ & ->)];
        [right; right; reflexivity | right; left; eexists; reflexivity]. }
  destruct data as [| b | n | r | s | items | entries];
    try (right; right; reflexivity).
  rewrite check_required_dict in Hc.
  destruct (find _ required_top) as [k|] eqn:Hf; [discriminate Hc|].
  assert (Hq : has_key "questions" entries = true).
  { pose proof (find_none _ _ Hf "questions") as Hn. cbn in Hn.
    destruct (has_key "questions" entries); [reflexivity|].
    discriminate Hn. auto. }
  assert (Hs : has_key "solution_table" entries = true).
  { pose proof (find_none _ _ Hf "solution_table") as Hn. cbn in Hn.
    destruct (has_key "solution_table" entries); [reflexivity|].
    discriminate Hn. auto. }
  apply has_key_lookup in Hq as [questions Hq], Hs as [st Hs].
  cbn [py_getitem]. rewrite Hq, Hs. cbn [bind].
  destruct questions as [| | | | | qs |];
    try (right; left; eexists; reflexivity).
  destruct qs as [|q qs]; [right; left; eexists; reflexivity|].
  cbn [bind isinstance_list negb py_len py_iter List.length Nat.eqb].
  destruct (check_questions 1 (q :: qs)) as [[]|e] eqn:Hl; cbn [bind].
  - destruct st; try (right; left; eexists; reflexivity). left. reflexivity.
  - destruct (check_questions_raises _ _ _ Hl) as (pre & q' & post & _ & _ & _ & Hq').
    destruct (check_question_outcome (1 + List.length pre) q') as [Ho|[Ho|[Ho|Ho]]];
      rewrite Ho in Hq'; try discriminate Hq'; injection Hq' as <-;
      [right; left; eexists; reflexivity | right; left; eexists; reflexivity
      | right; right; reflexivity].
Qed.

Lemma py_getitem_raises container k e :
  py_getitem container k = Raise e -> e = TypeError \/ e = KeyError k.
Proof.
  destruct container; cbn; try (intros [= <-]; left; reflexivity).
  destruct (lookup k entries); [discriminate | intros [= <-]; right; reflexivity].
Qed.

(** X3.  Every [ValueError] of the validator is one of its five
    messages, raised for the reason the message gives: a required key,
    one of the four, that is not in the value; a [questions] that is not
    a list or is the empty list; a question, at the 1-based position the
    message names, that is not well formed while the questions before it
    all are; a [solution_table] that is not a list. *)
Theorem validate_value_error_reasons data msg :
  validate_quiz_schema data = Raise (ValueError msg) ->
  (exists k, In k required_top /\ py_contains k data = Ok false /\
             msg = "Missing top-level key: " ++ k) \/
  (exists v, py_getitem data "questions" = Ok v /\
             (isinstance_list v = false \/ v = PyList []) /\
             msg = "questions must be a non-empty list") \/
  (exists pre q post,
     py_getitem data "questions" = Ok (PyList (pre ++ q :: post)) /\
     Forall well_formed_question pre /\
     ~ well_formed_question q /\
     (msg = "Question " ++ decimal (Z.of_nat (S (List.length pre)))
              ++ " must have 'text' and 'options'" \/
      msg = "Question " ++ decimal (Z.of_nat (S (List.length pre)))
              ++ " options must include A, B, C, D")) \/
  (exists v, py_getitem data "solution_table" = Ok v /\
             isinstance_list v = false /\
             msg = "solution_table must be a list").
Proof.
  intros H. unfold validate_quiz_schema in H.
  destruct (check_required data required_top) as [[]|e] eqn:Hc; cbn [bind] in H.
  2:{ injection H as ->.
      destruct (check_required_raises _ _ _ Hc) as [He | (k & Hin & Hk & He)];
        [discriminate He|].
      injection He as ->. left. exists k. repeat split; assumption. }
  destruct (py_getitem data "questions") as [questions|e] eqn:Hq; cbn [bind] in H.
  2:{ injection H as ->. destruct (py_getitem_raises _ _ _ Hq); discriminate. }
  destruct questions as [| b | n | r | s | qs | es];
    try (injection H as <-; right; left; eexists; split; [reflexivity|];
         split; [left; reflexivity | reflexivity]).
  destruct qs as [|q qs].
  { injection H as <-. right; left. eexists. split; [reflexivity|].
    split; [right; reflexivity | reflexivity]. }
  cbn [bind isinstance_list negb py_len py_iter List.length Nat.eqb] in H.
  destruct (check_questions 1 (q :: qs)) as [[]|e] eqn:Hl; cbn [bind] in H.
  - destruct (py_getitem data "solution_table") as [st|e] eqn:Hs; cbn [bind] in H.
    2:{ injection H as ->. destruct (py_getitem_raises _ _ _ Hs); discriminate. }
    destruct (isinstance_list st) eqn:Hi; cbn [negb] in H; [discriminate H|].
    injection H as <-. right; right; right. exists st. repeat split. exact Hi.
  - injection H as ->.
    destruct (check_questions_raises _ _ _ Hl) as (pre & q' & post & Heq & Hpre & Hnot & Hq').
    right; right; left. exists pre, q', post. rewrite <- Heq.
    split; [reflexivity|]. split; [exact Hpre|]. split; [exact Hnot|].
    cbn [Nat.add] in Hq'.
    destruct (check_question_outcome (S (List.length pre)) q') as [Ho|[Ho|[Ho|Ho]]];
      rewrite Ho in Hq'; try discriminate Hq'; injection Hq' as <-;
      [left | right]; reflexivity.
Qed.

Lemma validate_value_error_reasons_witness :
  (exists k, In k required_top /\ py_contains k third_question_unfit = Ok false /\
             "Question 3 options must include A, B, C, D" = "Missing top-level key: " ++ k) \/
  (exists v, py_getitem third_question_unfit "questions" = Ok v /\
             (isinstance_list v = false \/ v = PyList []) /\
             "Question 3 options must include A, B, C, D" =
               "questions must be a non-empty list") \/
  (exists pre q post,
     py_getitem third_question_unfit "questions" = Ok (PyList (pre ++ q :: post)) /\
     Forall well_formed_question pre /\
     ~ well_formed_question q /\
     ("Question 3 options must include A, B, C, D" =
        "Question " ++ decimal (Z.of_nat (S (List.length pre)))
          ++ " must have 'text' and 'options'" \/
      "Question 3 options must include A, B, C, D" =
        "Question " ++ decimal (Z.of_nat (S (List.length pre)))
          ++ " options must include A, B, C, D")) \/
  (exists v, py_getitem third_question_unfit "solution_table" = Ok v /\
             isinstance_list v = false /\
             "Question 3 options must include A, B, C, D" =
               "solution_table must be a list").
Proof.
  exact (validate_value_error_reasons third_question_unfit
           "Question 3 options must include A, B, C, D" eq_refl).
Defined.

(** The validator on a mapping, stage by stage. *)
Lemma validate_dict_stages entries :
  validate_quiz_schema (PyDict entries) =
  match find (fun k => negb (has_key k entries)) required_top with
  | Some k => Raise (ValueError ("Missing top-level key: " ++ k))
  | None =>
      match lookup "questions" entries with
      | Some (PyList (q :: qs)) =>
          check_questions 1 (q :: qs) ;;;
          match lookup "solution_table" entries with
          | Some (PyList _) => Ok true
          | Some _ => Raise (ValueError "solution_table must be a list")
          | None => Raise (KeyError "solution_table")
          end
      | Some _ => Raise (ValueError "questions must be a non-empty list")
      | None => Raise (KeyError "questions")
      end
  end.
Proof.
  unfold validate_quiz_schema. rewrite check_required_dict.
  destruct (find _ required_top); [reflexivity|].
  cbn [bind py_getitem].
  destruct (lookup "questions" entries) as [questions|]; [|reflexivity].
  cbn [bind].
  destruct questions as [| | | | | qs |]; try reflexivity.
  destruct qs as [|q qs]; [reflexivity|].
  cbn [bind isinstance_list negb py_len py_iter List.length Nat.eqb].
  destruct (check_questions 1 (q :: qs)) as [[]|e]; [|reflexivity].
  cbn [bind].
  destruct (lookup "solution_table" entries) as [st|]; [|reflexivity].
  destruct st; reflexivity.
Qed.

Lemma find_missing_none entries :
  find (fun k => negb (has_key k entries)) required_top = None <->
  has_required_top entries.
Proof.
  unfold has_required_top. rewrite Forall_forall. split.
  - intros Hf k Hk. apply (find_none _ _ Hf) in Hk.
    destruct (has_key k entries); [reflexivity | discriminate].
  - intros H. destruct (find _ required_top) as [k|] eqn:Hf; [|reflexivity].
    apply find_some in Hf as [Hin Hk]. rewrite (H k Hin) in Hk. discriminate.
Qed.

(** A value that is not a mapping never gets past the subscription. *)
Lemma validate_not_a_mapping data :
  isinstance_dict data = false ->
  validate_quiz_schema data = Raise TypeError \/
  exists k, validate_quiz_schema data = Raise (ValueError ("Missing top-level key: " ++ k)).
Proof.
  intros Hd. unfold validate_quiz_schema.
  destruct (check_required data required_top) as [[]|e] eqn:Hc; cbn [bind].
  - left. destruct data; try discriminate Hd; reflexivity.
  - destruct (check_required_raises _ _ _ Hc) as [-> | (k & _ & _ & ->)];
      [left; reflexivity | right; exists k; reflexivity].
Qed.

Lemma check_questions_raises_message i qs e :
  check_questions i qs = Raise e ->
  e = TypeError \/
  exists j, e = ValueError (msg_text_options j) \/ e = ValueError (msg_options_letters j).
Proof.
  intros H.
  destruct (check_questions_raises _ _ _ H) as (pre & q & post & _ & _ & _ & Hq).
  destruct (check_question_outcome (i + List.length pre) q) as [Ho|[Ho|[Ho|Ho]]];
    rewrite Ho in Hq; try discriminate Hq; injection Hq as <-.
  - right. eexists. left. reflexivity.
  - right. eexists. right. reflexivity.
  - left. reflexivity.
Qed.

(** X4.  The validator raises the non-empty message exactly on a mapping
    that has the four keys and whose [questions] is not a list or is the
    empty list: a mapping or a text for [questions] is turned down like
    an empty list, and nothing else earns this message. *)
Theorem questions_message_iff data :
  validate_quiz_schema data = Raise (ValueError "questions must be a non-empty list") <->
  exists entries v,
    data = PyDict entries /\
    has_required_top entries /\
    lookup "questions" entries = Some v /\
    (isinstance_list v = false \/ v = PyList []).
Proof.
  split.
  - intros H. destruct (isinstance_dict data) eqn:Hd.
    2:{ destruct (validate_not_a_mapping _ Hd) as [Ht | [k Hk]];
          rewrite H in *; discriminate. }
    destruct data as [| | | | | | entries]; try discriminate Hd.
    rewrite validate_dict_stages in H.
    destruct (find _ required_top) as [k|] eqn:Hf; [discriminate H|].
    apply find_missing_none in Hf.
    destruct (lookup "questions" entries) as [v|] eqn:Hq; [|discriminate H].
    exists entries, v. repeat split; try assumption.
    destruct v as [| | | | | qs |]; try (left; reflexivity).
    destruct qs as [|q qs]; [right; reflexivity|]. exfalso.
    destruct (check_questions 1 (q :: qs)) as [[]|e] eqn:Hl; cbn [bind] in H.
    + destruct (lookup "solution_table" entries) as [[]|]; discriminate H.
    + injection H as ->.
      destruct (check_questions_raises_message _ _ _ Hl) as [He | [j [He | He]]];
        discriminate He.
  - intros (entries & v & -> & Htop & Hq & Hv).
    rewrite validate_dict_stages.
    apply find_missing_none in Htop. rewrite Htop, Hq.
    destruct Hv as [Hv | ->]; [|reflexivity].
    destruct v; try reflexivity. discriminate Hv.
Qed.

(** X5.  The validator raises the solution-table message exactly on a
    mapping that passes every earlier check, so has a title, a subtitle
    and a non-empty list of well-formed questions, and whose
    [solution_table] is there and is not a list. *)
Theorem solution_table_message_iff data :
  validate_quiz_schema data = Raise (ValueError "solution_table must be a list") <->
  exists entries q qs v,
    data = PyDict entries /\
    has_key "title" entries = true /\
    has_key "subtitle" entries = true /\
    lookup "questions" entries = Some (PyList (q :: qs)) /\
    Forall well_formed_question (q :: qs) /\
    lookup "solution_table" entries = Some v /\
    isinstance_list v = false.
Proof.
  split.
  - intros H. destruct (isinstance_dict data) eqn:Hd.
    2:{ destruct (validate_not_a_mapping _ Hd) as [Ht | [k Hk]];
          rewrite H in *; discriminate. }
    destruct data as [| | | | | | entries]; try discriminate Hd.
    rewrite validate_dict_stages in H.
    destruct (find _ required_top) as [k|] eqn:Hf; [discriminate H|].
    apply find_missing_none in Hf.
    unfold has_required_top, required_top in Hf.
    inversion Hf as [|? ? Ht H1]; subst. inversion H1 as [|? ? Hsub _]; subst.
    destruct (lookup "questions" entries) as [v|] eqn:Hq; [|discriminate H].
    destruct v as [| | | | | qs |]; try discriminate H.
    destruct qs as [|q qs]; [discriminate H|].
    destruct (check_questions 1 (q :: qs)) as [[]|e] eqn:Hl; cbn [bind] in H.
    + destruct (lookup "solution_table" entries) as [st|] eqn:Hs; [|discriminate H].
      exists entries, q, qs, st. repeat split; try assumption.
      * apply (check_questions_ok 1). exact Hl.
      * destruct st; try reflexivity. discriminate H.
    + injection H as ->.
      destruct (check_questions_raises_message _ _ _ Hl) as [He | [j [He | He]]];
        discriminate He.
  - intros (entries & q & qs & v & -> & Ht & Hsub & Hq & Hwf & Hs & Hv).
    rewrite validate_dict_stages.
    assert (Htop : has_required_top entries).
    { unfold has_required_top, required_top.
      repeat constructor; try assumption; apply has_key_lookup; eauto. }
    apply find_missing_none in Htop. rewrite Htop, Hq.
    apply (check_questions_ok 1) in Hwf. rewrite Hwf. cbn [bind]. rewrite Hs.
    destruct v; try reflexivity. discriminate Hv.
Qed.

(** The verdict on a mapping depends on four things only. *)
Lemma validate_ext entries entries' :
  has_key "title" entries' = has_key "title" entries ->
  has_key "subtitle" entries' = has_key "subtitle" entries ->
  lookup "questions" entries' = lookup "questions" entries ->
  option_map isinstance_list (lookup "solution_table" entries') =
    option_map isinstance_list (lookup "solution_table" entries) ->
  validate_quiz_schema (PyDict entries') = validate_quiz_schema (PyDict entries).
Proof.
  intros Ht Hsub Hq Hs. rewrite !validate_dict_stages.
  assert (Hkq : has_key "questions" entries' = has_key "questions" entries).
  { unfold has_key. rewrite Hq. reflexivity. }
  assert (Hks : has_key "solution_table" entries' = has_key "solution_table" entries).
  { unfold has_key.
    destruct (lookup "solution_table" entries'), (lookup "solution_table" entries);
      try reflexivity; discriminate Hs. }
  unfold required_top. cbn [find]. rewrite Ht, Hsub, Hkq, Hks, Hq.
  destruct (lookup "solution_table" entries') as [st'|],
           (lookup "solution_table" entries) as [st|]; try discriminate Hs;
    [|reflexivity].
  cbn [option_map] in Hs. injection Hs as Hs.
  destruct st', st; try discriminate Hs; reflexivity.
Qed.

(** X6.  The verdict on a mapping depends only on whether it has a
    title and a subtitle, on its [questions], and on whether its
    [solution_table] is there and is a list: the values of the title and
    of the subtitle, the rows of the solution table and any other key
    are never looked at. *)
Theorem validate_looks_at_four_things entries entries' :
  has_key "title" entries' = has_key "title" entries ->
  has_key "subtitle" entries' = has_key "subtitle" entries ->
  lookup "questions" entries' = lookup "questions" entries ->
  option_map isinstance_list (lookup "solution_table" entries') =
    option_map isinstance_list (lookup "solution_table" entries) ->
  validate_quiz_schema (PyDict entries') = validate_quiz_schema (PyDict entries).
Proof. exact (validate_ext entries entries'). Qed.

Lemma validate_looks_at_four_things_witness :
  validate_quiz_schema (PyDict small_quiz_variant) =
  validate_quiz_schema (PyDict small_quiz_entries).
Proof.
  apply validate_looks_at_four_things; reflexivity.
Defined.

(** X7.  The order of the entries of the top-level mapping does not
    change the verdict. *)
Theorem validate_top_level_order entries entries' :
  NoDup (map fst entries) ->
  Permutation entries entries' ->
  validate_quiz_schema (PyDict entries') = validate_quiz_schema (PyDict entries).
Proof.
  intros Hnd HP.
  assert (Hl : forall k, lookup k entries' = lookup k entries).
  { intros k. apply lookup_Permutation; assumption. }
  apply validate_ext; unfold has_key; rewrite ?Hl; reflexivity.
Qed.

Lemma validate_top_level_order_witness :
  validate_quiz_schema (PyDict small_quiz_reversed) =
  validate_quiz_schema (PyDict small_quiz_entries).
Proof.
  apply validate_top_level_order.
  - cbn. repeat constructor; cbn; intuition discriminate.
  - change small_quiz_reversed with (rev small_quiz_entries).
    apply Permutation_rev.
Defined.

(** *** The messages name the check and the question *)

Lemma decimal_inj a b : decimal a = decimal b -> a = b.
Proof.
  unfold decimal. intros H.
  assert (Hn : forall z, NilZero.int_of_string (NilZero.string_of_int (Z.to_int z))
                         = Some (Z.to_int z)).
  { intros z. apply NilZero.isi;
      destruct z; cbn; try discriminate; intros [= E]; revert E;
      apply Unsigned.to_uint_nonnil. }
  pose proof (Hn a) as Ha. rewrite H, Hn in Ha. injection Ha as Ha.
  rewrite <- (DecimalZ.of_to a), <- (DecimalZ.of_to b), Ha. reflexivity.
Qed.

Lemma digits_no_space u : has_space (NilEmpty.string_of_uint u) = false.
Proof.
  induction u; cbn; try assumption. reflexivity.
Qed.

Lemma decimal_no_space z : has_space (decimal z) = false.
Proof.
  unfold decimal, NilZero.string_of_int, NilZero.string_of_uint.
  destruct (Z.to_int z) as [u|u]; destruct u; cbn; try reflexivity;
    apply digits_no_space.
Qed.

(** Two texts without a space, each followed by a space and more, are
    equal when the wholes are, and so is what follows them. *)
Lemma split_at_first_space a b s t :
  has_space a = false -> has_space b = false ->
  a ++ String " " s = b ++ String " " t -> a = b /\ s = t.
Proof.
  revert b. induction a as [|c a IH]; intros [|c' b] Ha Hb H; cbn in *.
  - injection H as ->. split; reflexivity.
  - injection H as <- _. discriminate Hb.
  - injection H as -> _. discriminate Ha.
  - injection H as -> H.
    apply orb_false_iff in Ha as [_ Ha], Hb as [_ Hb].
    destruct (IH b Ha Hb H) as [-> ->]. split; reflexivity.
Qed.

(** X8.  The two messages about a question name its position without
    ambiguity: two text-and-options messages, or two options messages,
    are the same text only for the same position, and a text-and-options
    message is never the text of an options message. *)
Theorem question_messages_identify_position i j :
  (msg_text_options i = msg_text_options j <-> i = j) /\
  (msg_options_letters i = msg_options_letters j <-> i = j) /\
  msg_text_options i <> msg_options_letters j.
Proof.
  unfold msg_text_options, msg_options_letters.
  assert (Hsplit : forall s t,
            "Question " ++ decimal (Z.of_nat i) ++ String " " s =
            "Question " ++ decimal (Z.of_nat j) ++ String " " t ->
            i = j /\ s = t).
  { intros s t H. cbn in H. injection H as H.
    apply split_at_first_space in H as [Hd Hs]; try apply decimal_no_space.
    apply decimal_inj in Hd. split; [lia | exact Hs]. }
  repeat split.
  - intros H. apply Hsplit in H as [H _]. exact H.
  - intros ->. reflexivity.
  - intros H. apply Hsplit in H as [H _]. exact H.
  - intros ->. reflexivity.
  - intros H. apply Hsplit in H as [_ H]. discriminate H.
Qed.

(** X9.  The validator raises a [TypeError] only on a value that is not
    a mapping, or on a mapping whose questions, up to the first one that
    is not well formed, are mappings except that one. *)
Theorem validate_type_error_reasons data :
  validate_quiz_schema data = Raise TypeError ->
  isinstance_dict data = false \/
  exists pre q post,
    py_getitem data "questions" = Ok (PyList (pre ++ q :: post)) /\
    Forall well_formed_question pre /\
    isinstance_dict q = false.
Proof.
  intros H. destruct data as [| | | | | | entries]; try (left; reflexivity).
  right. rewrite validate_dict_stages in H.
  destruct (find _ required_top); [discriminate H|].
  destruct (lookup "questions" entries) as [v|] eqn:Hq; [|discriminate H].
  destruct v as [| | | | | qs |]; try discriminate H.
  destruct qs as [|q qs]; [discriminate H|].
  destruct (check_questions 1 (q :: qs)) as [[]|e] eqn:Hl; cbn [bind] in H.
  - destruct (lookup "solution_table" entries) as [[]|]; discriminate H.
  - injection H as ->.
    destruct (check_questions_raises _ _ _ Hl) as (pre & q' & post & Heq & Hpre & _ & Hq').
    exists pre, q', post. cbn [py_getitem]. rewrite Hq, Heq.
    split; [reflexivity|]. split; [exact Hpre|].
    destruct q'; try reflexivity.
    rewrite check_question_dict in Hq'.
    destruct (lacks_text_or_options _); [discriminate Hq'|].
    destruct (has_unfit_options _); discriminate Hq'.
Qed.

Lemma validate_type_error_reasons_witness :
  isinstance_dict question_not_a_mapping = false \/
  exists pre q post,
    py_getitem question_not_a_mapping "questions" = Ok (PyList (pre ++ q :: post)) /\
    Forall well_formed_question pre /\
    isinstance_dict q = false.
Proof.
  exact (validate_type_error_reasons question_not_a_mapping eq_refl).
Defined.

(** ** More on the assembler *)

Section AssemblerMore.

Variable repr_str : string -> string.
Variable markup_error : string -> option string.

Lemma groups_of_sizes i qs gs :
  groups_of repr_str i qs gs ->
  List.length (concat gs) = 6 * List.length qs /\
  count is_spacer (concat gs) = List.length qs.
Proof.
  unfold count.
  induction 1 as [i | i q qs g gs Hg _ IH]; cbn [concat List.length].
  - cbn. auto.
  - destruct IH as (IH1 & IH2). destruct Hg.
    rewrite !filter_app, !length_app, IH1, IH2. cbn. split; lia.
Qed.

(** The loop over the rows keeps the table rectangular and adds a row
    per entry. *)
Lemma append_rows_ok table_data rows table_data' :
  append_rows repr_str table_data rows = Ok table_data' ->
  Forall (fun cells => List.length cells = 3) table_data ->
  Forall (fun cells => List.length cells = 3) table_data' /\
  List.length table_data' = List.length table_data + List.length rows /\
  Forall (fun row => isinstance_dict row = true) rows.
Proof.
  revert table_data. induction rows as [|row rows IH]; intros table_data H Hrect;
    cbn [append_rows] in H.
  - injection H as <-. cbn. repeat split; [exact Hrect | lia | constructor].
  - destruct row as [| | | | | | entries]; try discriminate H.
    unfold append_row in H. cbn [py_get] in H.
    destruct (lookup "number" entries), (lookup "answer" entries),
      (lookup "explanation" entries); cbn [bind] in H;
      apply IH in H as (H1 & H2 & H3);
      try (apply Forall_app; split; [exact Hrect | repeat constructor]);
      (repeat split; [exact H1 | rewrite H2, length_app; cbn; lia
                     | constructor; [reflexivity | exact H3]]).
Qed.

Lemma append_rows_not_a_mapping table_data rows :
  Exists (fun row => isinstance_dict row = false) rows ->
  append_rows repr_str table_data rows = Raise AttributeError.
Proof.
  intros H. destruct (append_rows_outcome repr_str table_data rows) as [[td Htd] | Hr];
    [|exact Hr].
  exfalso.
  assert (Hall : Forall (fun row => isinstance_dict row = true) rows).
  { clear H. revert table_data td Htd.
    induction rows as [|row rows IH]; intros table_data td Htd; [constructor|].
    cbn [append_rows] in Htd.
    destruct (append_row repr_str table_data row) as [td0|e] eqn:Hrow; [|discriminate Htd].
    cbn [bind] in Htd. constructor; [|exact (IH _ _ Htd)].
    destruct row; try discriminate Hrow. reflexivity. }
  rewrite Forall_forall in Hall. apply Exists_exists in H as (row & Hin & Hrow).
  rewrite (Hall row Hin) in Hrow. discriminate Hrow.
Qed.

Lemma group_of_functional i q g g' :
  group_of repr_str i q g -> group_of repr_str i q g' -> g = g'.
Proof.
  intros [e o t a b c d -> Ht Ho Ha Hb Hc Hd] [e' o' t' a' b' c' d' He Ht' Ho' Ha' Hb' Hc' Hd'].
  injection He as <-. rewrite Ht in Ht'. injection Ht' as <-.
  rewrite Ho in Ho'. injection Ho' as <-.
  rewrite Ha in Ha'. rewrite Hb in Hb'. rewrite Hc in Hc'. rewrite Hd in Hd'.
  injection Ha' as <-. injection Hb' as <-. injection Hc' as <-. injection Hd' as <-.
  reflexivity.
Qed.

Lemma groups_of_functional i qs gs gs' :
  groups_of repr_str i qs gs -> groups_of repr_str i qs gs' -> gs = gs'.
Proof.
  intros H. revert gs'. induction H as [i | i q qs g gs Hg _ IH]; intros gs' H';
    inversion H' as [| ? ? ? g' gs0 Hg' Hgs']; subst; [reflexivity|].
  rewrite (group_of_functional _ _ _ _ Hg Hg'), (IH _ Hgs'). reflexivity.
Qed.

Lemma append_rows_hd h tl rows table_data :
  append_rows repr_str (h :: tl) rows = Ok table_data ->
  hd_error table_data = Some h.
Proof.
  revert tl. induction rows as [|row rows IH]; intros tl H; cbn [append_rows] in H.
  - injection H as <-. reflexivity.
  - destruct (append_row repr_str (h :: tl) row) as [td0|] eqn:Hrow; [|discriminate H].
    cbn [bind] in H. unfold append_row in Hrow.
    destruct (py_get row "number" _); [|discriminate Hrow]. cbn [bind] in Hrow.
    destruct (py_get row "answer" _); [|discriminate Hrow]. cbn [bind] in Hrow.
    destruct (py_get row "explanation" _); [|discriminate Hrow]. cbn [bind] in Hrow.
    injection Hrow as <-. cbn [app] in H. exact (IH _ H).
Qed.

(** X10.  On a mapping whose title, subtitle, questions and solution
    table can be read, the questions having their groups, the story is
    built exactly when ReportLab takes every paragraph of the front
    matter and of the groups (so the title and the subtitle are texts)
    and every entry of the solution table is a mapping. *)
Theorem story_built_iff data title subtitle qs gs rows :
  py_getitem data "title" = Ok title ->
  py_getitem data "subtitle" = Ok subtitle ->
  py_getitem data "questions" = Ok (PyList qs) ->
  groups_of repr_str 1 qs gs ->
  py_getitem data "solution_table" = Ok (PyList rows) ->
  (exists story, build_story repr_str markup_error data = Ok story) <->
  Forall (accepted markup_error) (front_matter title subtitle ++ concat gs) /\
  Forall (fun row => isinstance_dict row = true) rows.
Proof.
  intros Ht Hs Hq Hgs Hst. split.
  - intros [story Hb].
    destruct (build_story_inv _ _ _ _ Hb)
      as (title' & subtitle' & qs' & gs' & rows' & td & Ht' & Hs' & Hq' & Hgs' & Hr' & Htd
          & -> & Hacc).
    rewrite Ht in Ht'. injection Ht' as <-. rewrite Hs in Hs'. injection Hs' as <-.
    rewrite Hq in Hq'. cbn [bind py_iter] in Hq'. injection Hq' as <-.
    rewrite (groups_of_functional _ _ _ _ Hgs' Hgs) in Hacc.
    destruct (py_getitem_ok _ _ _ Hst) as (entries & -> & Hl).
    cbn [py_get] in Hr'. rewrite Hl in Hr'. cbn [bind py_iter] in Hr'. injection Hr' as <-.
    split.
    + rewrite app_assoc in Hacc. apply Forall_app in Hacc as [Hacc _]. exact Hacc.
    + exact (append_rows_ok_mappings _ _ _ _ Htd).
  - intros [Hacc Hrows].
    destruct (build_story_completes repr_str markup_error _ _ _ _ _ _ Ht Hs Hq Hgs Hacc Hst Hrows)
      as (rs & _ & Hb).
    eexists. exact Hb.
Qed.

End AssemblerMore.

Lemma story_built_iff_witness :
  (exists story, build_story plain_repr accept_markup title_is_a_number = Ok story) <->
  Forall (accepted accept_markup)
         (front_matter (PyInt 5) (PyStr "s") ++
          concat [question_group plain_repr 1 (PyStr "Pick one")
                    (PyStr "one") (PyInt 2) PyNone (PyStr "four")]) /\
  Forall (fun row => isinstance_dict row = true) [].
Proof.
  apply (story_built_iff plain_repr accept_markup title_is_a_number (PyInt 5) (PyStr "s")
           small_questions _ []); try reflexivity.
  repeat constructor. eapply group_of_question; reflexivity.
Defined.

Section StoryShape.

Variable repr_str : string -> string.
Variable markup_error : string -> option string.

(** X11.  The story of an accepted quiz with [n] questions has
    [6 * n + 9] flowables: two page breaks, one table, [n + 2] spacers
    and, the title, subtitle and two headings apart, five paragraphs per
    question. *)
Theorem story_shape data qs story :
  validate_quiz_schema data = Ok true ->
  py_getitem data "questions" = Ok (PyList qs) ->
  build_story repr_str markup_error data = Ok story ->
  List.length story = 6 * List.length qs + 9 /\
  count is_page_break story = 2 /\
  count is_table story = 1 /\
  count is_spacer story = List.length qs + 2 /\
  count is_body_paragraph story = 5 * List.length qs.
Proof.
  intros _ Hqs Hstory.
  destruct (build_story_inv _ _ _ _ Hstory)
    as (title & subtitle & qs0 & gs & rows & td & _ & _ & Hq & Hgs & _ & _ & -> & _).
  rewrite Hqs in Hq. cbn [bind py_iter] in Hq. injection Hq as <-.
  destruct (groups_of_counts _ _ _ _ Hgs) as (Hc1 & Hc2 & Hc3).
  destruct (groups_of_sizes _ _ _ _ Hgs) as (Hl & Hsp).
  unfold count in *.
  rewrite !filter_app, !length_app, Hc1, Hc2, Hc3, Hl, Hsp. cbn.
  repeat split; lia.
Qed.

(** X12.  Whenever the story is built, from an accepted value or not,
    it ends with the table; the table has the header row and one row per
    entry of the solution table (none when the value has no solution
    table), and every row has three cells, as many as there are column
    widths. *)
Theorem table_is_rectangular data story :
  build_story repr_str markup_error data = Ok story ->
  exists front table_data rows,
    story = (front ++ [Table table_data table_colWidths table_style])%list /\
    (solution_table <- py_get data "solution_table" (PyList []) ;;
     py_iter solution_table) = Ok rows /\
    List.length table_data = 1 + List.length rows /\
    Forall (fun cells => List.length cells = List.length table_colWidths) table_data /\
    hd_error table_data = Some table_header.
Proof.
  intros H.
  destruct (build_story_inv _ _ _ _ H)
    as (title & subtitle & qs & gs & rows & td & _ & _ & _ & _ & Hr & Htd & -> & _).
  destruct (append_rows_ok _ _ _ _ Htd) as (Hrect & Hlen & _).
  { repeat constructor. }
  exists (front_matter title subtitle ++ concat gs ++
          [PageBreak; Paragraph (PyStr "Solution Table") h2])%list, td, rows.
  split; [unfold back_matter; repeat rewrite <- app_assoc; reflexivity|].
  split; [exact Hr|]. split; [exact Hlen|]. split; [exact Hrect|].
  exact (append_rows_hd _ _ _ _ _ Htd).
Qed.

(** X13.  A document [build_pdf] sets up has the path it was given, the
    quiz's own title for title, and the story of the quiz: the default
    title is never used, since a value without a title has no story. *)
Theorem build_pdf_document path data d :
  build_pdf repr_str markup_error path data = Ok d ->
  d.(doc_path) = path /\
  py_getitem data "title" = Ok d.(doc_title) /\
  build_story repr_str markup_error data = Ok d.(doc_story) /\
  d.(doc_pagesize) = "A4" /\
  d.(doc_margins) = [Mm 20; Mm 20; Mm 20; Mm 20].
Proof.
  unfold build_pdf. intros H.
  destruct (build_story repr_str markup_error data) as [story|] eqn:Hb; [|discriminate H].
  cbn [bind] in H.
  destruct (build_story_inv _ _ _ _ Hb) as (title & ? & ? & ? & ? & ? & Ht & _).
  destruct (py_getitem_ok _ _ _ Ht) as (entries & -> & Hl).
  cbn [py_get py_getitem] in *. rewrite Hl in H |- *.
  cbn [bind] in H. injection H as <-. cbn. repeat split; reflexivity.
Qed.

(** X14.  The assembler on its own asks less than the validator: on a
    mapping with a title, a subtitle and a list of questions that have
    their groups, empty or not, and with no solution table at all, it
    builds the story when ReportLab takes every paragraph, with a table
    of the header row alone. *)
Theorem story_without_solution_table entries title subtitle qs gs :
  lookup "title" entries = Some title ->
  lookup "subtitle" entries = Some subtitle ->
  lookup "questions" entries = Some (PyList qs) ->
  groups_of repr_str 1 qs gs ->
  Forall (accepted markup_error) (front_matter title subtitle ++ concat gs) ->
  lookup "solution_table" entries = None ->
  build_story repr_str markup_error (PyDict entries) =
    Ok (front_matter title subtitle ++ concat gs ++ back_matter [table_header])%list.
Proof.
  intros Ht Hsub Hq Hgs Hacc Hs.
  apply (build_story_intro repr_str markup_error (PyDict entries) title subtitle qs gs []);
    try assumption; cbn [py_getitem py_get].
  - rewrite Ht. reflexivity.
  - rewrite Hsub. reflexivity.
  - rewrite Hq. reflexivity.
  - rewrite Hs. reflexivity.
  - reflexivity.
Qed.

Lemma append_question_raises story i q e :
  append_question repr_str markup_error story i q = Raise e ->
  e = TypeError \/ (exists msg, e = ValueError msg) \/
  exists k, In k subscripted_keys /\ e = KeyError k.
Proof.
  unfold append_question. intros H.
  assert (Hk : forall c k, In k subscripted_keys -> py_getitem c k = Raise e ->
               e = TypeError \/ (exists msg, e = ValueError msg) \/
               exists k, In k subscripted_keys /\ e = KeyError k).
  { intros c k Hin Hc. destruct (py_getitem_raises _ _ _ Hc) as [-> | ->];
      [left; reflexivity | right; right; exists k; split; [exact Hin | reflexivity]]. }
  assert (Hp : forall s style, new_Paragraph markup_error (PyStr s) style = Raise e ->
               e = TypeError \/ (exists msg, e = ValueError msg) \/
               exists k, In k subscripted_keys /\ e = KeyError k).
  { intros s style Hn. right; left. unfold new_Paragraph in Hn.
    destruct (has_markup s); [|discriminate Hn].
    destruct (markup_error s) as [msg|]; [|discriminate Hn].
    injection Hn as <-. exists msg. reflexivity. }
  destruct (py_getitem q "text") eqn:H1; cbn [bind] in H.
  2:{ injection H as ->. eapply Hk; [|exact H1]; cbn; tauto. }
  destruct (new_Paragraph _ _ question_style) eqn:P0; cbn [bind] in H.
  2:{ injection H as ->. exact (Hp _ _ P0). }
  destruct (py_getitem q "options") as [opts|] eqn:H2; cbn [bind] in H.
  2:{ injection H as ->. eapply Hk; [|exact H2]; cbn; tauto. }
  destruct (py_getitem opts "A") eqn:H3; cbn [bind] in H.
  2:{ injection H as ->. eapply Hk; [|exact H3]; cbn; tauto. }
  destruct (new_Paragraph _ (PyStr ("A) " ++ _)) _) eqn:P1; cbn [bind] in H.
  2:{ injection H as ->. exact (Hp _ _ P1). }
  destruct (py_getitem opts "B") eqn:H4; cbn [bind] in H.
  2:{ injection H as ->. eapply Hk; [|exact H4]; cbn; tauto. }
  destruct (new_Paragraph _ (PyStr ("B) " ++ _)) _) eqn:P2; cbn [bind] in H.
  2:{ injection H as ->. exact (Hp _ _ P2). }
  destruct (py_getitem opts "C") eqn:H5; cbn [bind] in H.
  2:{ injection H as ->. eapply Hk; [|exact H5]; cbn; tauto. }
  destruct (new_Paragraph _ (PyStr ("C) " ++ _)) _) eqn:P3; cbn [bind] in H.
  2:{ injection H as ->. exact (Hp _ _ P3). }
  destruct (py_getitem opts "D") eqn:H6; cbn [bind] in H.
  2:{ injection H as ->. eapply Hk; [|exact H6]; cbn; tauto. }
  destruct (new_Paragraph _ (PyStr ("D) " ++ _)) _) eqn:P4; cbn [bind] in H.
  2:{ injection H as ->. exact (Hp _ _ P4). }
  discriminate H.
Qed.

Lemma append_questions_raises story i qs e :
  append_questions repr_str markup_error story i qs = Raise e ->
  e = TypeError \/ (exists msg, e = ValueError msg) \/
  exists k, In k subscripted_keys /\ e = KeyError k.
Proof.
  revert story i. induction qs as [|q qs IH]; intros story i H; cbn [append_questions] in H.
  - discriminate H.
  - destruct (append_question repr_str markup_error story i q) as [story'|e'] eqn:Hq;
      cbn [bind] in H.
    + exact (IH _ _ H).
    + injection H as ->. exact (append_question_raises _ _ _ _ Hq).
Qed.


End StoryShape.

Lemma story_shape_witness :
  exists story,
    build_story plain_repr reject_markup small_quiz = Ok story /\
    List.length story = 15 /\
    count is_spacer story = 3.
Proof.
  eexists. split; [reflexivity|].
  destruct (story_shape plain_repr reject_markup small_quiz small_questions _ eq_refl eq_refl eq_refl)
    as (Hl & _ & _ & Hs & _).
  split; [exact Hl | exact Hs].
Defined.

Lemma table_is_rectangular_witness :
  exists front table_data (rows : list value),
    build_story plain_repr reject_markup (PyDict quiz_without_solution_table) =
      Ok (front ++ [Table table_data table_colWidths table_style])%list /\
    rows = [] /\
    List.length table_data = 1 + List.length rows.
Proof.
  destruct (table_is_rectangular plain_repr reject_markup (PyDict quiz_without_solution_table) _ eq_refl)
    as (front & td & rows & Hstory & Hrows & Hlen & _).
  exists front, td, rows. split; [rewrite <- Hstory; reflexivity|].
  split; [|exact Hlen]. cbn in Hrows. injection Hrows as <-. reflexivity.
Defined.

Lemma build_pdf_document_witness :
  exists d,
    build_pdf plain_repr reject_markup "quiz.pdf" small_quiz = Ok d /\
    py_getitem small_quiz "title" = Ok d.(doc_title) /\
    d.(doc_path) = "quiz.pdf".
Proof.
  destruct (build_pdf plain_repr reject_markup "quiz.pdf" small_quiz) as [d|e] eqn:Hb;
    [|vm_compute in Hb; discriminate Hb].
  exists d. destruct (build_pdf_document plain_repr reject_markup _ _ _ Hb) as (Hp & Ht & _).
  split; [reflexivity|]. split; [exact Ht | exact Hp].
Defined.

Lemma story_without_solution_table_witness :
  exists gs,
    groups_of plain_repr 1 small_questions gs /\
    build_story plain_repr reject_markup (PyDict quiz_without_solution_table) =
      Ok (front_matter (PyStr "t") (PyStr "s") ++ concat gs ++
          back_matter [table_header])%list.
Proof.
  assert (Hgs : groups_of plain_repr 1 small_questions
            [question_group plain_repr 1 (PyStr "Pick one")
               (PyStr "one") (PyInt 2) PyNone (PyStr "four")]).
  { repeat constructor. eapply group_of_question; reflexivity. }
  eexists. split; [exact Hgs|].
  apply (story_without_solution_table plain_repr reject_markup quiz_without_solution_table
           (PyStr "t") (PyStr "s") small_questions _ eq_refl eq_refl eq_refl Hgs).
  - repeat constructor.
  - reflexivity.
Defined.


(** ** The application *)

Section AppFacts.

Variable repr_str : string -> string.
Variable markup_error : string -> option string.
Variable strip : string -> string.
Variable loads : string -> result value.
Variable read : string -> result string.
Variable render : document -> result unit.

(** The parse and the validation of [generate_pdf], by cases. *)
Lemma parse_and_validate_cases raw :
  (exists data, loads raw = Ok data /\ validate_quiz_schema data = Ok true /\
                (data <- loads raw ;; validate_quiz_schema data ;;; Ok data) = Ok data) \/
  (exists e, (data <- loads raw ;; validate_quiz_schema data ;;; Ok data) = Raise e /\
             (loads raw = Raise e \/
              exists data, loads raw = Ok data /\ validate_quiz_schema data = Raise e)).
Proof.
  destruct (loads raw) as [data|e] eqn:Hl; cbn [bind].
  - destruct (validate_quiz_schema data) as [b|e] eqn:Hv; cbn [bind].
    + left. exists data.
      assert (b = true) as ->.
      { destruct (validate_ok_inv _ _ Hv) as (? & ? & ? & ? & _ & _ & _ & _ & _ & Hb).
        exact Hb. }
      split; [reflexivity|]. split; [exact Hv | reflexivity].
    + right. exists e. split; [reflexivity|]. right. exists data.
      split; [reflexivity | exact Hv].
  - right. exists e. split; [reflexivity|]. left. reflexivity.
Qed.

(** X16.  [generate_pdf] hands a document to the layout library only
    when the text parsed, the validator accepted the parsed value, the
    user gave a path, and the document is the one [build_pdf] sets up
    for that value and that path. *)
Theorem generate_pdf_builds_only_validated text out_path d :
  In (doc_build d) (generate_pdf repr_str markup_error strip loads render text out_path) ->
  exists data,
    loads (strip (text_get text)) = Ok data /\
    validate_quiz_schema data = Ok true /\
    out_path <> "" /\
    build_pdf repr_str markup_error out_path data = Ok d.
Proof.
  unfold generate_pdf.
  destruct (String.eqb (strip (text_get text)) "").
  { intros [H|[]]; discriminate H. }
  destruct (parse_and_validate_cases (strip (text_get text)))
    as [(data & Hl & Hv & ->) | (e & -> & _)].
  2:{ intros [H|[]]; discriminate H. }
  intros [H|H]; [discriminate H|]. revert H.
  destruct (String.eqb_spec out_path ""); [intros []|].
  destruct (build_pdf repr_str markup_error out_path data) as [d'|e] eqn:Hb.
  2:{ intros [H|[]]; discriminate H. }
  intros [H|H].
  - injection H as ->. exists data. repeat split; assumption.
  - revert H. destruct (render d'); intros [H|[]]; discriminate H.
Qed.

(** X17.  Every run of [generate_pdf] shows exactly one message box,
    except the run in which the user cancels the save dialog, which
    shows the dialog and nothing else. *)
Theorem generate_pdf_one_message_box text out_path :
  List.length (filter is_message_box (generate_pdf repr_str markup_error strip loads render text out_path)) = 1 \/
  (out_path = "" /\ generate_pdf repr_str markup_error strip loads render text out_path = [asksaveasfilename]).
Proof.
  unfold generate_pdf.
  destruct (String.eqb (strip (text_get text)) ""); [left; reflexivity|].
  destruct (parse_and_validate_cases (strip (text_get text)))
    as [(data & Hl & Hv & ->) | (e & -> & _)]; [|left; reflexivity].
  destruct (String.eqb_spec out_path ""); [right; split; [assumption | reflexivity]|].
  left. destruct (build_pdf repr_str markup_error out_path data) as [d|e]; [|reflexivity].
  destruct (render d); reflexivity.
Qed.

(** X18.  The save dialog is shown exactly when the text is not blank,
    parses, and the validator accepts the parsed value. *)
Theorem generate_pdf_asks_path_iff_valid text out_path :
  In asksaveasfilename (generate_pdf repr_str markup_error strip loads render text out_path) <->
  strip (text_get text) <> "" /\
  exists data,
    loads (strip (text_get text)) = Ok data /\
    validate_quiz_schema data = Ok true.
Proof.
  unfold generate_pdf.
  destruct (String.eqb_spec (strip (text_get text)) "") as [He|He].
  { split; [intros [H|[]]; discriminate H | intros [Hn _]; contradiction]. }
  destruct (parse_and_validate_cases (strip (text_get text)))
    as [(data & Hl & Hv & ->) | (e & -> & Hcause)].
  - split; [intros _; split; [exact He | exists data; split; assumption] | intros _; left; reflexivity].
  - split; [intros [H|[]]; discriminate H|].
    intros (_ & data & Hl & Hv). exfalso.
    destruct Hcause as [Hc | (data' & Hc & Hv')]; rewrite Hl in Hc; [discriminate Hc|].
    injection Hc as <-. rewrite Hv in Hv'. discriminate Hv'.
Qed.

(** X19.  The success box is shown exactly when the text is not blank,
    parses, is accepted, the user gives a path, the document is set up
    and the layout library builds it. *)
Theorem generate_pdf_success_iff text out_path :
  (exists message,
     In (showinfo "Success" message)
        (generate_pdf repr_str markup_error strip loads render text out_path)) <->
  strip (text_get text) <> "" /\
  out_path <> "" /\
  exists data d,
    loads (strip (text_get text)) = Ok data /\
    validate_quiz_schema data = Ok true /\
    build_pdf repr_str markup_error out_path data = Ok d /\
    render d = Ok tt.
Proof.
  unfold generate_pdf.
  destruct (String.eqb_spec (strip (text_get text)) "") as [He|He].
  { split; [intros [m [H|[]]]; discriminate H | intros [Hn _]; contradiction]. }
  destruct (parse_and_validate_cases (strip (text_get text)))
    as [(data & Hl & Hv & ->) | (e & -> & Hcause)].
  2:{ split; [intros [m [H|[]]]; discriminate H|].
      intros (_ & _ & data & d & Hl & Hv & _). exfalso.
      destruct Hcause as [Hc | (data' & Hc & Hv')]; rewrite Hl in Hc; [discriminate Hc|].
      injection Hc as <-. rewrite Hv in Hv'. discriminate Hv'. }
  destruct (String.eqb_spec out_path "") as [Ho|Ho].
  { split; [intros [m [H|[]]]; discriminate H | intros (_ & Hn & _); contradiction]. }
  destruct (build_pdf repr_str markup_error out_path data) as [d|e] eqn:Hb.
  2:{ split; [intros [m [H|[H|[]]]]; discriminate H|].
      intros (_ & _ & data' & d & Hl' & _ & Hb' & _). exfalso.
      rewrite Hl in Hl'. injection Hl' as <-. rewrite Hb in Hb'. discriminate Hb'. }
  destruct (render d) as [[]|e] eqn:Hr.
  - split; [|intros _; eexists; right; right; left; reflexivity].
    intros _. split; [exact He|]. split; [exact Ho|].
    exists data, d. repeat split; assumption.
  - split; [intros [m [H|[H|[H|[]]]]]; discriminate H|].
    intros (_ & _ & data' & d' & Hl' & _ & Hb' & Hr'). exfalso.
    rewrite Hl in Hl'. injection Hl' as <-. rewrite Hb in Hb'. injection Hb' as <-.
    rewrite Hr in Hr'. discriminate Hr'.
Qed.


(** X21.  A file that parses is put in the text area whether or not it
    fits the schema, with no message; when the parser reads the text
    area's content as it reads the file, generating from it then shows
    the invalid box with the validator's own error, and no save dialog. *)
Theorem open_then_generate_reports_schema_error text path content data e out_path :
  path <> "" ->
  read path = Ok content ->
  loads content = Ok data ->
  validate_quiz_schema data = Raise e ->
  strip (text_get content) <> "" ->
  loads (strip (text_get content)) = loads content ->
  open_json_file loads read text path = (content, [askopenfilename]) /\
  generate_pdf repr_str markup_error strip loads render (fst (open_json_file loads read text path)) out_path =
    [showerror "Invalid JSON" e].
Proof.
  intros Hp Hr Hl Hv Hs Hsame.
  assert (Hopen : open_json_file loads read text path = (content, [askopenfilename])).
  { unfold open_json_file. destruct (String.eqb_spec path ""); [contradiction|].
    rewrite Hr. cbn [bind]. rewrite Hl. reflexivity. }
  split; [exact Hopen|]. rewrite Hopen. cbn [fst]. unfold generate_pdf.
  destruct (String.eqb_spec (strip (text_get content)) ""); [contradiction|].
  rewrite Hsame, Hl. cbn [bind]. rewrite Hv. reflexivity.
Qed.

(** X22.  [open_json_file] changes the text area only to the content of
    a file that it could read and that parses; when the user cancels,
    or the file cannot be read, or its content does not parse, the text
    area keeps its content. *)
Theorem open_json_file_keeps_text_on_failure text path :
  fst (open_json_file loads read text path) = text \/
  (path <> "" /\
   read path = Ok (fst (open_json_file loads read text path)) /\
   exists v, loads (fst (open_json_file loads read text path)) = Ok v).
Proof.
  unfold open_json_file.
  destruct (String.eqb_spec path ""); [left; reflexivity|].
  destruct (read path) as [content|e]; cbn [bind]; [|left; reflexivity].
  destruct (loads content) as [v|e] eqn:Hl; cbn [bind fst]; [|left; reflexivity].
  right. split; [assumption|]. split; [reflexivity|]. exists v. exact Hl.
Qed.

End AppFacts.

Lemma generate_pdf_builds_only_validated_witness :
  exists d data,
    In (doc_build d)
       (generate_pdf plain_repr reject_markup strip_stub loads_stub render_stub "small" "out.pdf") /\
    loads_stub (strip_stub (text_get "small")) = Ok data /\
    validate_quiz_schema data = Ok true /\
    build_pdf plain_repr reject_markup "out.pdf" data = Ok d.
Proof.
  assert (Hin : exists d,
            In (doc_build d)
               (generate_pdf plain_repr reject_markup strip_stub loads_stub render_stub "small" "out.pdf")).
  { eexists. right. left. reflexivity. }
  destruct Hin as [d Hin].
  destruct (generate_pdf_builds_only_validated plain_repr reject_markup strip_stub loads_stub render_stub
              "small" "out.pdf" d Hin) as (data & Hl & Hv & _ & Hb).
  exists d, data. split; [exact Hin|]. split; [exact Hl|]. split; [exact Hv | exact Hb].
Defined.


Lemma open_then_generate_reports_schema_error_witness :
  open_json_file loads_stub read_stub "old text" "empty.json" = ("{}", [askopenfilename]) /\
  generate_pdf plain_repr reject_markup strip_stub loads_stub render_stub
    (fst (open_json_file loads_stub read_stub "old text" "empty.json")) "out.pdf" =
    [showerror "Invalid JSON" (ValueError "Missing top-level key: title")].
Proof.
  apply (open_then_generate_reports_schema_error plain_repr reject_markup strip_stub loads_stub read_stub
           render_stub "old text" "empty.json" "{}" (PyDict [])).
  - discriminate.
  - reflexivity.
  - reflexivity.
  - reflexivity.
  - discriminate.
  - reflexivity.
Defined.

(** The callbacks on the stand-ins. *)
Example generate_pdf_on_blank_text :
  generate_pdf plain_repr reject_markup strip_stub loads_stub render_stub "" "out.pdf" =
    [showwarning "Empty" "Please paste a JSON object first."].
Proof. reflexivity. Qed.

Example generate_pdf_renderer_fails :
  exists d,
    generate_pdf plain_repr reject_markup strip_stub loads_stub render_stub "small" "/" =
      [asksaveasfilename; doc_build d; showerror "Error" TypeError].
Proof. eexists. reflexivity. Qed.

Example open_json_file_unreadable :
  open_json_file loads_stub read_stub "old text" "missing.json" =
    ("old text", [askopenfilename; showerror "Error" TypeError]).
Proof. reflexivity. Qed.
